(** * Dimensional-analysis server: the symbol-table builder and the
      equation checker of [src/hello_server/server.py]

    The server is a thin layer over two external collaborators: the pint unit
    registry ([Q_], [.units], [.check]) and Python's [eval].  Both are kept
    abstract in the class [Runtime]; everything the server itself does
    (splitting and trimming text, the two-step resolution of custom
    variables, [try]/[except Exception], dictionary updates, message
    templates) is embedded as written. *)

From Stdlib Require Import ZArith Ascii String List Floats.SpecFloat.
From stdpp Require Import base option list gmap strings.

Local Open Scope string_scope.

(** ** Python [str] primitives

    A Python [str] is represented by its UTF-8 encoding. *)
Module PyStr.

(** [c in s] for a one-character [c]. *)
Fixpoint contains (c : ascii) (s : string) : bool :=
  match s with
  | EmptyString => false
  | String a rest => if Ascii.eqb a c then true else contains c rest
  end.

(** [s.count(c)] for a one-character [c]. *)
Fixpoint count (c : ascii) (s : string) : nat :=
  match s with
  | EmptyString => 0
  | String a rest => if Ascii.eqb a c then S (count c rest) else count c rest
  end.

(** The text before and after the first occurrence of [c]. *)
Fixpoint before (c : ascii) (s : string) : string :=
  match s with
  | EmptyString => EmptyString
  | String a rest =>
      if Ascii.eqb a c then EmptyString else String a (before c rest)
  end.

Fixpoint after (c : ascii) (s : string) : string :=
  match s with
  | EmptyString => EmptyString
  | String a rest => if Ascii.eqb a c then rest else after c rest
  end.

(** [s.split(sep)] for a one-character separator: never empty. *)
Fixpoint split (sep : ascii) (s : string) : list string :=
  match s with
  | EmptyString => [EmptyString]
  | String a rest =>
      if Ascii.eqb a sep then EmptyString :: split sep rest
      else match split sep rest with
           | hd :: tl => String a hd :: tl
           | [] => [String a EmptyString]
           end
  end.

(** [s.split(sep, 1)]: at most one cut, at the first separator. *)
Fixpoint split1 (sep : ascii) (s : string) : list string :=
  match s with
  | EmptyString => [EmptyString]
  | String a rest =>
      if Ascii.eqb a sep then [EmptyString; rest]
      else match split1 sep rest with
           | hd :: tl => String a hd :: tl
           | [] => [String a EmptyString]
           end
  end.

(** [sep.join(parts)]. *)
Fixpoint join (sep : string) (parts : list string) : string :=
  match parts with
  | [] => EmptyString
  | [p] => p
  | p :: rest => p ++ sep ++ join sep rest
  end.

(** A continuation byte of a UTF-8 sequence: [10xxxxxx]. *)
Definition is_continuation (a : ascii) : bool :=
  let n := nat_of_ascii a in (128 <=? n)%nat && (n <? 192)%nat.

Definition starts_with_continuation (s : string) : bool :=
  match s with
  | String b _ => is_continuation b
  | EmptyString => false
  end.

(** The code points of a string, each as its own UTF-8 chunk. *)
Fixpoint code_points (s : string) : list string :=
  match s with
  | EmptyString => []
  | String a rest =>
      match code_points rest with
      | hd :: tl =>
          if starts_with_continuation rest then String a hd :: tl
          else String a EmptyString :: hd :: tl
      | [] => [String a EmptyString]
      end
  end.

Definition bytes (l : list nat) : string :=
  string_of_list_ascii (map ascii_of_nat l).

(** The characters [str.strip()] removes: those for which
    [str.isspace()] holds (U+0009..U+000D, U+001C..U+0020, U+0085, U+00A0,
    U+1680, U+2000..U+200A, U+2028, U+2029, U+202F, U+205F, U+3000). *)
Definition whitespace : list string :=
  map (fun n => bytes [n]) [9; 10; 11; 12; 13; 28; 29; 30; 31; 32]%nat
  ++ [bytes [194; 133]; bytes [194; 160]; bytes [225; 154; 128]]%nat
  ++ map (fun n => bytes [226; 128; n]) (seq 128 11)
  ++ [bytes [226; 128; 168]; bytes [226; 128; 169]; bytes [226; 128; 175];
      bytes [226; 129; 159]; bytes [227; 128; 128]]%nat.

Definition is_space (cp : string) : bool :=
  existsb (String.eqb cp) whitespace.

Fixpoint drop_space (cps : list string) : list string :=
  match cps with
  | cp :: rest => if is_space cp then drop_space rest else cps
  | [] => []
  end.

Definition lstrip_cps (cps : list string) : list string := drop_space cps.
Definition rstrip_cps (cps : list string) : list string :=
  rev (drop_space (rev cps)).

(** [s.strip()]. *)
Definition strip (s : string) : string :=
  String.concat EmptyString (rstrip_cps (lstrip_cps (code_points s))).

End PyStr.


(** ** Exceptions and the [try]/[except Exception] construct *)

(** The classes of the exceptions that the modelled code can meet.  The last
    three derive from [BaseException] only. *)
Inductive exn_class :=
  | ValueError | NameError | SyntaxError | AttributeError | TypeError
  | ZeroDivisionError | OverflowError | UndefinedUnitError
  | OtherException (name : string)
  | SystemExit | KeyboardInterrupt | GeneratorExit.

(** An exception object: its class and [str(e)]. *)
Record exn := Exn { exn_kind : exn_class; exn_text : string }.

(** [isinstance(e, Exception)]. *)
Definition is_Exception (e : exn) : bool :=
  match exn_kind e with
  | SystemExit | KeyboardInterrupt | GeneratorExit => false
  | _ => true
  end.

Inductive outcome (A : Type) :=
  | Ok (a : A)
  | Raise (e : exn).
Arguments Ok {A} a.
Arguments Raise {A} e.

#[global] Instance outcome_ret : MRet outcome := fun A a => Ok a.
#[global] Instance outcome_bind : MBind outcome := fun A B k m =>
  match m with
  | Ok a => k a
  | Raise e => Raise e
  end.

(** [try: body  except Exception as e: handler e]. *)
Definition try_except {A} (body : outcome A) (handler : exn -> outcome A)
  : outcome A :=
  match body with
  | Ok a => Ok a
  | Raise e => if is_Exception e then handler e else Raise e
  end.

(** [a, b = parts]: the unpacking of a list into exactly two targets. *)
Definition unpack2 {A} (parts : list A) : outcome (A * A) :=
  match parts with
  | [a; b] => Ok (a, b)
  | [] => Raise (Exn ValueError "not enough values to unpack (expected 2, got 0)")
  | [_] => Raise (Exn ValueError "not enough values to unpack (expected 2, got 1)")
  | _ => Raise (Exn ValueError "too many values to unpack (expected 2)")
  end.

(** ** Numbers, quantities and evaluation results *)

(** A Python number: an [int] or a binary64 [float]. *)
Inductive number :=
  | PyInt (z : Z)
  | PyFloat (f : spec_float).

Definition type_name (n : number) : string :=
  match n with
  | PyInt _ => "int"
  | PyFloat _ => "float"
  end.

(** [float(n)]: an [int] is rounded to the nearest binary64 value and is
    refused when that value would be out of range. *)
Definition py_float (n : number) : outcome spec_float :=
  match n with
  | PyFloat f => Ok f
  | PyInt z =>
      match binary_normalize 53 1024 z 0 false with
      | S754_infinity _ =>
          Raise (Exn OverflowError "int too large to convert to float")
      | f => Ok f
      end
  end.

(** A pint [Quantity] over units of type [U]. *)
Record Quantity (U : Type) := Q { magnitude : number; units : U }.
Arguments Q {U} magnitude units.
Arguments magnitude {U} q.
Arguments units {U} q.

(** What an expression evaluates to: a unit-tagged [Quantity] or a bare
    number. *)
Inductive value (U : Type) :=
  | VQuantity (q : Quantity U)
  | VNumber (n : number).
Arguments VQuantity {U} q.
Arguments VNumber {U} n.

(** The [locals] handed to [eval] (its globals are always the empty
    dictionary): the symbol table, or [{"Q_": Q_, "ureg": ureg}]. *)
Inductive locals (U : Type) :=
  | InContext (context : gmap string (value U))
  | InRegistry.
Arguments InContext {U} context.
Arguments InRegistry {U}.

(** The external collaborators.  [parse_units] is the unit parser that
    [Q_(magnitude, text)] runs on its second argument, [units_str] is [str]
    of a quantity's [.units], [dimensionality] is the dimension that
    [Quantity.check] compares, and [py_eval expr locals] is
    [eval(expr, {}, locals)], taken as a function of the expression and the
    namespace. *)
Class Runtime := {
  Unit : Type;
  Dimension : Type;
  Dimension_eq_dec :: EqDecision Dimension;
  parse_units : string -> outcome Unit;
  units_str : Unit -> string;
  dimensionality : Unit -> Dimension;
  py_eval : string -> locals Unit -> outcome (value Unit)
}.

(** ** Configuration and results *)

(** The session configuration ([ConfigSchema]). *)
Record ConfigSchema := {
  verbose_output : bool;
  include_constants : bool;
  custom_variables : option string
}.

(** The [Context] handed to a tool: it carries the session configuration. *)
Record RequestContext := { session_config : ConfigSchema }.

Record verbose_info := {
  lhs_expression : string;
  rhs_expression : string;
  lhs_magnitude : spec_float;
  rhs_magnitude : spec_float
}.

(** The dictionary returned by [check_equation_sanity]; [verbose] is the
    optional ["verbose"] key, [None] in a unit field is Python's [None]. *)
Record result := {
  equation : string;
  consistent : bool;
  lhs_units : option string;
  rhs_units : option string;
  message : string;
  verbose : option verbose_info
}.

(** [result["verbose"] = info]. *)
Definition set_verbose (r : result) (info : verbose_info) : result :=
  {| equation := equation r;
     consistent := consistent r;
     lhs_units := lhs_units r;
     rhs_units := rhs_units r;
     message := message r;
     verbose := Some info |}.

Definition LF : string := String (ascii_of_nat 10) EmptyString.

(** The truth value of an [Optional[str]]: [None] and [""] are false. *)
Definition truthy (o : option string) : bool :=
  match o with
  | None | Some EmptyString => false
  | Some _ => true
  end.

(** The fixed catalog of [build_context]: symbol, magnitude, unit text, in
    the order of the dictionary literal. *)
Definition catalog : list (string * (number * string)) :=
  [ ("F", (PyInt 1, "newton"));
    ("m", (PyInt 1, "kilogram"));
    ("a", (PyInt 1, "meter/second**2"));
    ("v", (PyInt 1, "meter/second"));
    ("u", (PyInt 1, "meter/second"));
    ("d", (PyInt 1, "meter"));
    ("x", (PyInt 1, "meter"));
    ("t", (PyInt 1, "second"));
    ("p", (PyInt 1, "kilogram*meter/second"));
    ("E", (PyInt 1, "joule"));
    ("W", (PyInt 1, "joule"));
    ("KE", (PyInt 1, "joule"));
    ("PE", (PyInt 1, "joule"));
    ("P", (PyInt 1, "watt"));
    ("q", (PyInt 1, "coulomb"));
    ("V", (PyInt 1, "volt"));
    ("I", (PyInt 1, "ampere"));
    ("R", (PyInt 1, "ohm"));
    ("C", (PyInt 1, "farad"));
    ("L", (PyInt 1, "henry"));
    ("B", (PyInt 1, "tesla"));
    ("phi", (PyInt 1, "weber"));
    ("T", (PyInt 1, "kelvin"));
    ("k", (PyInt 1, "joule/kelvin"));
    ("R_gas", (PyInt 1, "joule/(mol*kelvin)"));
    ("n", (PyInt 1, "mole"));
    ("p_pressure", (PyInt 1, "pascal"));
    ("V_volume", (PyInt 1, "meter**3"));
    ("Q_heat", (PyInt 1, "joule"));
    ("f", (PyInt 1, "hertz"));
    ("lambda_", (PyInt 1, "meter"));
    ("c", (PyInt 299792458, "meter/second"));
    ("omega", (PyInt 1, "radian/second"));
    ("G", (PyFloat (S754_finite false 5163757388869142 (-86)),
           "meter**3 / (kilogram * second**2)"));
    ("h", (PyFloat (S754_finite false 7747127879163650 (-163)), "joule*second"));
    ("e", (PyFloat (S754_finite false 6654447653898235 (-115)), "coulomb")) ].

(** An insertion-ordered dictionary of strings, as [current_vars] of
    [add_custom_variable]: assigning to a present key keeps its position. *)
Fixpoint od_set (k v : string) (d : list (string * string))
  : list (string * string) :=
  match d with
  | [] => [(k, v)]
  | (k', v') :: rest =>
      if String.eqb k' k then (k', v) :: rest else (k', v') :: od_set k v rest
  end.

Fixpoint od_get (k : string) (d : list (string * string)) : option string :=
  match d with
  | [] => None
  | (k', v') :: rest => if String.eqb k' k then Some v' else od_get k rest
  end.

(** ** The server *)
Section Server.
Context `{RT : Runtime}.

Abbreviation context := (gmap string (value Unit)).

(** [Q_(magnitude, text)]. *)
Definition Q_ (m : number) (text : string) : outcome (Quantity Unit) :=
  u ← parse_units text; mret (Q m u).

(** Modelled from the spec: pint's [Quantity.check], which is not part of
    the repository.  [q.check(r)] is true iff the dimensions of the two
    quantities are equal, irrespective of magnitude and unit scale. *)
Definition check (q r : Quantity Unit) : bool :=
  bool_decide (dimensionality (units q) = dimensionality (units r)).

(** The dictionary literal [base_context = {...}], entry by entry. *)
Fixpoint dict_literal (entries : list (string * (number * string)))
    (d : context) : outcome context :=
  match entries with
  | [] => mret d
  | (name, (m, text)) :: rest =>
      q ← Q_ m text; dict_literal rest (<[name := VQuantity q]> d)
  end.

Definition base_context : outcome context := dict_literal catalog ∅.

(** The inner [try]/[except Exception] of [build_context]: the value bound
    to a custom variable. *)
Definition resolve (unit_expr : string) : outcome (value Unit) :=
  try_except (q ← Q_ (PyInt 1) unit_expr; mret (VQuantity q))
             (fun _ => py_eval unit_expr InRegistry).

(** The body of the loop over [var_def]. *)
Definition add_var_def (var_def : string) (custom_vars : context)
  : outcome context :=
  if PyStr.contains "=" var_def then
    '(var_name, unit_expr) ← unpack2 (PyStr.split1 "=" (PyStr.strip var_def));
    let var_name := PyStr.strip var_name in
    let unit_expr := PyStr.strip unit_expr in
    v ← resolve unit_expr;
    mret (<[var_name := v]> custom_vars)
  else mret custom_vars.

Fixpoint for_var_defs (var_defs : list string) (custom_vars : context)
  : outcome context :=
  match var_defs with
  | [] => mret custom_vars
  | var_def :: rest =>
      custom_vars' ← add_var_def var_def custom_vars;
      for_var_defs rest custom_vars'
  end.

(** [build_context], with the standard output it prints to threaded
    through. *)
Definition build_context (session_config : ConfigSchema)
    (stdout : list string) : outcome context * list string :=
  match base_context with
  | Raise e => (Raise e, stdout)
  | Ok base =>
      if truthy (custom_variables session_config) then
        match for_var_defs
                (PyStr.split "," (default "" (custom_variables session_config)))
                ∅ with
        | Ok custom_vars => (Ok (custom_vars ∪ base), stdout)
        | Raise e =>
            if is_Exception e then
              (Ok base,
               app stdout ["Warning: Failed to parse custom variables: "
                           ++ exn_text e])
            else (Raise e, stdout)
        end
      else (Ok base, stdout)
  end.

Definition no_attribute (n : number) (attr : string) : exn :=
  Exn AttributeError
      ("'" ++ type_name n ++ "' object has no attribute '" ++ attr ++ "'").

(** The dictionary built by the [if lhs_val.check(rhs_val): ... else: ...]
    statement, [lhs_units] and [rhs_units] being [str] of each side's
    [.units]. *)
Definition compared (equation : string) (lq rq : Quantity Unit) : result :=
  let lhs_units := units_str (units lq) in
  let rhs_units := units_str (units rq) in
  if check lq rq then
    {| equation := equation;
       consistent := true;
       lhs_units := Some lhs_units;
       rhs_units := Some rhs_units;
       message :=
         "✅ Equation is dimensionally consistent: both sides are ["
         ++ lhs_units ++ "].";
       verbose := None |}
  else
    {| equation := equation;
       consistent := false;
       lhs_units := Some lhs_units;
       rhs_units := Some rhs_units;
       message :=
         "❌ Equation is NOT consistent: LHS is [" ++ lhs_units
         ++ "] but RHS is [" ++ rhs_units ++ "].";
       verbose := None |}.

(** The body of the [try] of [check_equation_sanity]. *)
Definition check_equation_body (equation : string) (ctx : context)
    (verbose : bool) : outcome result :=
  '(lhs, rhs) ← unpack2 (PyStr.split "=" equation);
  let lhs_expr := PyStr.strip lhs in
  let rhs_expr := PyStr.strip rhs in
  lhs_val ← py_eval lhs_expr (InContext ctx);
  rhs_val ← py_eval rhs_expr (InContext ctx);
  match lhs_val, rhs_val with
  | VNumber n, _ => Raise (no_attribute n "units")
  | VQuantity _, VNumber n => Raise (no_attribute n "units")
  | VQuantity lq, VQuantity rq =>
      let res := compared equation lq rq in
      if verbose then
        lm ← py_float (magnitude lq);
        rm ← py_float (magnitude rq);
        mret (set_verbose res {| lhs_expression := lhs_expr;
                                 rhs_expression := rhs_expr;
                                 lhs_magnitude := lm;
                                 rhs_magnitude := rm |})
      else mret res
  end.

(** The dictionary built by the [except Exception as e] branch. *)
Definition error_result (equation : string) (e : exn) : result :=
  {| equation := equation;
     consistent := false;
     lhs_units := None;
     rhs_units := None;
     message := "❌ Error while checking equation: " ++ exn_text e;
     verbose := None |}.

Definition check_equation_sanity (equation : string) (ctx : context)
    (verbose : bool) : outcome result :=
  try_except (check_equation_body equation ctx verbose)
             (fun e => mret (error_result equation e)).

End Server.

(** The value of an outcome, if it has one. *)
Definition ok_value {A} (o : outcome A) : option A :=
  match o with
  | Ok a => Some a
  | Raise _ => None
  end.

(** The custom variables bound by a list of (name, expression) terms, in
    order: each expression is resolved and stored under its name. *)
Fixpoint bind_terms `{RT : Runtime} (terms : list (string * string))
    (custom_vars : gmap string (value Unit))
  : outcome (gmap string (value Unit)) :=
  match terms with
  | [] => mret custom_vars
  | (name, expr) :: rest =>
      v ← resolve expr; bind_terms rest (<[name := v]> custom_vars)
  end.

(** ** The registration tool *)

(** The loop of [add_custom_variable] over the terms of the configured
    string.  It runs inside a [try]: whatever was stored before an exception
    stays in [current_vars]. *)
Fixpoint collect_var_defs (var_defs : list string)
    (current_vars : list (string * string))
  : list (string * string) * outcome () :=
  match var_defs with
  | [] => (current_vars, Ok ())
  | var_def :: rest =>
      if PyStr.contains "=" var_def then
        match unpack2 (PyStr.split1 "=" (PyStr.strip var_def)) with
        | Ok (var_name, unit_expr) =>
            collect_var_defs rest
              (od_set (PyStr.strip var_name) (PyStr.strip unit_expr)
                      current_vars)
        | Raise e => (current_vars, Raise e)
        end
      else collect_var_defs rest current_vars
  end.

(** [f"{k}={v}"]. *)
Definition render_var (kv : string * string) : string :=
  fst kv ++ "=" ++ snd kv.

(** The text returned by [add_custom_variable]. *)
Definition instructions (name unit new_custom_vars : string) : string :=
  "✅ Custom variable '" ++ name ++ "' with unit '" ++ unit ++ "' added."
  ++ LF ++ LF
  ++ "To use this variable, restart the server with:" ++ LF
  ++ "custom_variables='" ++ new_custom_vars ++ "'" ++ LF ++ LF
  ++ "Example usage in equations:" ++ LF
  ++ "- 'h = 0.5 * g * t**2' (height with gravitational acceleration)" ++ LF
  ++ "- 'F = rho * A * v**2' (force with density and area)".

(** [add_custom_variable]: the tool receives the request context and hands
    it back next to its answer. *)
Definition add_custom_variable (name unit : string) (ctx : RequestContext)
  : outcome string * RequestContext :=
  let session_config := session_config ctx in
  let '(current_vars, status) :=
    if truthy (custom_variables session_config) then
      collect_var_defs
        (PyStr.split "," (default "" (custom_variables session_config))) []
    else ([], Ok ()) in
  match try_except status (fun _ => Ok ()) with
  | Raise e => (Raise e, ctx)
  | Ok _ =>
      let current_vars := od_set name unit current_vars in
      let new_custom_vars := PyStr.join "," (map render_var current_vars) in
      (Ok (instructions name unit new_custom_vars), ctx)
  end.

(** ** A reference runtime

    A finite fragment of the two collaborators, used to run the server on
    concrete inputs: the registry knows the unit texts of the catalog and
    [kilometer]; the evaluator knows names, decimal integer literals and the
    call [__import__('sys').exit()]. *)
Module Reference.

(** A unit: its canonical text and the exponents of its dimension over
    length, mass, time, current, temperature, substance, luminosity. *)
Record unit := { canonical : string; exponents : list Z }.

Definition registry : list (string * unit) :=
  [ ("newton", {| canonical := "newton"; exponents := [1; 1; -2; 0; 0; 0; 0] |});
    ("kilogram", {| canonical := "kilogram"; exponents := [0; 1; 0; 0; 0; 0; 0] |});
    ("meter/second**2",
      {| canonical := "meter / second ** 2"; exponents := [1; 0; -2; 0; 0; 0; 0] |});
    ("meter/second",
      {| canonical := "meter / second"; exponents := [1; 0; -1; 0; 0; 0; 0] |});
    ("meter", {| canonical := "meter"; exponents := [1; 0; 0; 0; 0; 0; 0] |});
    ("kilometer", {| canonical := "kilometer"; exponents := [1; 0; 0; 0; 0; 0; 0] |});
    ("second", {| canonical := "second"; exponents := [0; 0; 1; 0; 0; 0; 0] |});
    ("kilogram*meter/second",
      {| canonical := "kilogram * meter / second";
         exponents := [1; 1; -1; 0; 0; 0; 0] |});
    ("joule", {| canonical := "joule"; exponents := [2; 1; -2; 0; 0; 0; 0] |});
    ("watt", {| canonical := "watt"; exponents := [2; 1; -3; 0; 0; 0; 0] |});
    ("coulomb", {| canonical := "coulomb"; exponents := [0; 0; 1; 1; 0; 0; 0] |});
    ("volt", {| canonical := "volt"; exponents := [2; 1; -3; -1; 0; 0; 0] |});
    ("ampere", {| canonical := "ampere"; exponents := [0; 0; 0; 1; 0; 0; 0] |});
    ("ohm", {| canonical := "ohm"; exponents := [2; 1; -3; -2; 0; 0; 0] |});
    ("farad", {| canonical := "farad"; exponents := [-2; -1; 4; 2; 0; 0; 0] |});
    ("henry", {| canonical := "henry"; exponents := [2; 1; -2; -2; 0; 0; 0] |});
    ("tesla", {| canonical := "tesla"; exponents := [0; 1; -2; -1; 0; 0; 0] |});
    ("weber", {| canonical := "weber"; exponents := [2; 1; -2; -1; 0; 0; 0] |});
    ("kelvin", {| canonical := "kelvin"; exponents := [0; 0; 0; 0; 1; 0; 0] |});
    ("joule/kelvin",
      {| canonical := "joule / kelvin"; exponents := [2; 1; -2; 0; -1; 0; 0] |});
    ("joule/(mol*kelvin)",
      {| canonical := "joule / kelvin / mole";
         exponents := [2; 1; -2; 0; -1; -1; 0] |});
    ("mole", {| canonical := "mole"; exponents := [0; 0; 0; 0; 0; 1; 0] |});
    ("pascal", {| canonical := "pascal"; exponents := [-1; 1; -2; 0; 0; 0; 0] |});
    ("meter**3", {| canonical := "meter ** 3"; exponents := [3; 0; 0; 0; 0; 0; 0] |});
    ("hertz", {| canonical := "hertz"; exponents := [0; 0; -1; 0; 0; 0; 0] |});
    ("radian/second",
      {| canonical := "radian / second"; exponents := [0; 0; -1; 0; 0; 0; 0] |});
    ("meter**3 / (kilogram * second**2)",
      {| canonical := "meter ** 3 / kilogram / second ** 2";
         exponents := [3; -1; -2; 0; 0; 0; 0] |});
    ("joule*second",
      {| canonical := "joule * second"; exponents := [2; 1; -1; 0; 0; 0; 0] |}) ]%Z.

Fixpoint find_unit (text : string) (table : list (string * unit))
  : option unit :=
  match table with
  | [] => None
  | (t, u) :: rest => if String.eqb t text then Some u else find_unit text rest
  end.

Definition parse_units (text : string) : outcome unit :=
  match find_unit text registry with
  | Some u => Ok u
  | None =>
      Raise (Exn UndefinedUnitError
                 ("'" ++ text ++ "' is not defined in the unit registry"))
  end.

Definition in_range (lo hi : nat) (a : ascii) : bool :=
  let n := nat_of_ascii a in (lo <=? n)%nat && (n <=? hi)%nat.

Definition is_digit (a : ascii) : bool := in_range 48 57 a.

Definition is_name_start (a : ascii) : bool :=
  in_range 65 90 a || in_range 97 122 a || Ascii.eqb a "_".

Fixpoint all_chars (p : ascii -> bool) (s : string) : bool :=
  match s with
  | EmptyString => true
  | String a rest => p a && all_chars p rest
  end.

Definition keywords : list string :=
  [ "False"; "None"; "True"; "and"; "as"; "assert"; "async"; "await";
    "break"; "class"; "continue"; "def"; "del"; "elif"; "else"; "except";
    "finally"; "for"; "from"; "global"; "if"; "import"; "in"; "is";
    "lambda"; "nonlocal"; "not"; "or"; "pass"; "raise"; "return"; "try";
    "while"; "with"; "yield" ].

(** An ASCII identifier that is not a keyword. *)
Definition is_name (s : string) : bool :=
  match s with
  | EmptyString => false
  | String a rest =>
      is_name_start a
      && all_chars (fun b => is_name_start b || is_digit b) rest
      && negb (existsb (String.eqb s) keywords)
  end.

Fixpoint digits_value (acc : Z) (s : string) : Z :=
  match s with
  | EmptyString => acc
  | String a rest =>
      digits_value (10 * acc + Z.of_nat (nat_of_ascii a - 48)) rest
  end.

(** A decimal integer literal: [0], or digits without a leading zero. *)
Definition int_literal (s : string) : option Z :=
  match s with
  | EmptyString => None
  | String a rest =>
      if all_chars is_digit s
         && (negb (Ascii.eqb a "0") || String.eqb rest EmptyString)
      then Some (digits_value 0 s)
      else None
  end.

Definition outside_fragment {A} : outcome A :=
  Raise (Exn (OtherException "OutsideFragment") "expression outside the fragment").

(** [eval(expr, {}, locals)] on the fragment.  A name bound in [locals] is
    looked up there; any other name is taken not to be a builtin and raises
    [NameError]. *)
Definition py_eval (expr : string) (ns : locals unit) : outcome (value unit) :=
  if String.eqb expr "__import__('sys').exit()" then Raise (Exn SystemExit "")
  else if is_name expr then
    match ns with
    | InContext ctx =>
        match ctx !! expr with
        | Some v => Ok v
        | None => Raise (Exn NameError ("name '" ++ expr ++ "' is not defined"))
        end
    | InRegistry =>
        if String.eqb expr "Q_" || String.eqb expr "ureg" then outside_fragment
        else Raise (Exn NameError ("name '" ++ expr ++ "' is not defined"))
    end
  else
    match int_literal expr with
    | Some z => Ok (VNumber (PyInt z))
    | None => outside_fragment
    end.

#[export] Instance runtime : Runtime :=
  Build_Runtime unit (list Z) _ parse_units canonical exponents py_eval.

End Reference.

(** ** Reading a configuration string, in the words of the specification *)

(** A term [name=expr]: cut at the first [=], both parts trimmed; a term
    without [=] has no parts. *)
Definition var_def_parts (var_def : string) : option (string * string) :=
  if PyStr.contains "=" var_def then
    let term := PyStr.strip var_def in
    Some (PyStr.strip (PyStr.before "=" term), PyStr.strip (PyStr.after "=" term))
  else None.

(** The (name, expression) pairs of a specification string. *)
Definition custom_terms (spec : string) : list (string * string) :=
  omap var_def_parts (PyStr.split "," spec).

(** The terms of the configured string, none when it is absent or empty. *)
Definition configured_terms (session_config : ConfigSchema)
  : list (string * string) :=
  if truthy (custom_variables session_config)
  then custom_terms (default "" (custom_variables session_config))
  else [].

(** The last expression bound to [name] in a list of terms. *)
Fixpoint last_binding (name : string) (terms : list (string * string))
  : option string :=
  match terms with
  | [] => None
  | (k, v) :: rest =>
      match last_binding name rest with
      | Some v' => Some v'
      | None => if String.eqb k name then Some v else None
      end
  end.

(** The symbol table as a function of the terms: the catalog overridden by
    the custom variables, or, when binding them fails with an [Exception],
    the catalog alone and one warning. *)
Definition build_from_terms `{RT : Runtime} (terms : list (string * string))
    (stdout : list string)
  : outcome (gmap string (value Unit)) * list string :=
  match base_context with
  | Raise e => (Raise e, stdout)
  | Ok base =>
      match bind_terms terms ∅ with
      | Ok custom_vars => (Ok (custom_vars ∪ base), stdout)
      | Raise e =>
          if is_Exception e then
            (Ok base,
             app stdout ["Warning: Failed to parse custom variables: "
                         ++ exn_text e])
          else (Raise e, stdout)
      end
  end.

(** The bindings already configured, merged by name in order. *)
Definition configured_bindings (session_config : ConfigSchema)
  : list (string * string) :=
  foldl (fun d kv => od_set (fst kv) (snd kv) d) []
        (configured_terms session_config).

(** ** Concrete inputs on the reference runtime *)
Module Inputs.
Import Reference.

Definition meter : unit :=
  {| canonical := "meter"; exponents := [1; 0; 0; 0; 0; 0; 0]%Z |}.
Definition meter_cubed : unit :=
  {| canonical := "meter ** 3"; exponents := [3; 0; 0; 0; 0; 0; 0]%Z |}.

Definition config (verbose : bool) (spec : option string) : ConfigSchema :=
  {| verbose_output := verbose;
     include_constants := true;
     custom_variables := spec |}.

(** The table that [build_context] returns, empty when it raises. *)
Definition table_after (stdout : list string) (session_config : ConfigSchema)
  : gmap string (value unit) :=
  default ∅ (ok_value (fst (build_context session_config stdout))).

Definition table (session_config : ConfigSchema) : gmap string (value unit) :=
  table_after [] session_config.

Definition catalog_table : gmap string (value unit) :=
  default ∅ (ok_value base_context).

(** A distance whose magnitude is an [int] beyond the range of [float]. *)
Definition far : Quantity unit := Q (PyInt (10 ^ 400)) meter.
Definition far_table : gmap string (value unit) := {["d" := VQuantity far]}.

End Inputs.

(** ** The remaining tools: [check_equation] and [list_units] *)

(** [context[var_name].units] and [lhs_val.units]: the attribute [units] of
    an evaluated value. *)
Definition get_units {U} (v : value U) : outcome U :=
  match v with
  | VQuantity q => Ok (units q)
  | VNumber n =>
      Raise (Exn AttributeError
               ("'" ++ type_name n ++ "' object has no attribute 'units'"))
  end.

(** [f"{x}"] for a value that is a string or [None]. *)
Definition str_or_None (o : option string) : string :=
  match o with
  | Some s => s
  | None => "None"
  end.

(** [f"- **{symbol}**: {description}\n"]. *)
Definition unit_line (symbol description : string) : string :=
  "- **" ++ symbol ++ "**: " ++ description ++ LF.

(** The dictionaries [categories] and [constants] of [list_units], in the
    order of their literals. *)
Definition categories : list (string * list (string * string)) :=
  [ ("Mechanics",
      [ ("F", "Force (newton)");
        ("m", "Mass (kilogram)");
        ("a", "Acceleration (meter/second²)");
        ("v", "Velocity (meter/second)");
        ("u", "Initial velocity (meter/second)");
        ("d", "Distance/displacement (meter)");
        ("x", "Position (meter)");
        ("t", "Time (second)");
        ("p", "Momentum (kilogram·meter/second)") ]);
    ("Energy & Work",
      [ ("E", "Energy (joule)");
        ("W", "Work (joule)");
        ("KE", "Kinetic energy (joule)");
        ("PE", "Potential energy (joule)");
        ("P", "Power (watt)") ]);
    ("Electricity & Magnetism",
      [ ("q", "Charge (coulomb)");
        ("V", "Voltage (volt)");
        ("I", "Current (ampere)");
        ("R", "Resistance (ohm)");
        ("C", "Capacitance (farad)");
        ("L", "Inductance (henry)");
        ("B", "Magnetic field (tesla)");
        ("phi", "Magnetic flux (weber)") ]);
    ("Thermodynamics",
      [ ("T", "Temperature (kelvin)");
        ("k", "Boltzmann constant (joule/kelvin)");
        ("R_gas", "Gas constant (joule/(mol·kelvin))");
        ("n", "Amount of substance (mole)");
        ("p_pressure", "Pressure (pascal)");
        ("V_volume", "Volume (meter³)");
        ("Q_heat", "Heat (joule)") ]);
    ("Waves & Optics",
      [ ("f", "Frequency (hertz)");
        ("lambda_", "Wavelength (meter)");
        ("c", "Speed of light (299792458 m/s)");
        ("omega", "Angular frequency (radian/second)") ]) ].

Definition constants : list (string * string) :=
  [ ("G", "Gravitational constant (6.674×10⁻¹¹ m³/(kg·s²))");
    ("h", "Planck constant (6.626×10⁻³⁴ J·s)");
    ("e", "Elementary charge (1.602×10⁻¹⁹ C)") ].

(** [for symbol, description in units.items(): output += ...]. *)
Fixpoint list_entries (units : list (string * string)) (output : string)
  : string :=
  match units with
  | [] => output
  | (symbol, description) :: rest =>
      list_entries rest (output ++ unit_line symbol description)
  end.

(** [for category, units in categories.items(): ...]. *)
Fixpoint list_categories (cats : list (string * list (string * string)))
    (output : string) : string :=
  match cats with
  | [] => output
  | (category, units) :: rest =>
      list_categories rest
        (list_entries units (output ++ ("## " ++ category ++ LF)) ++ LF)
  end.

(** The three closing lines of [list_units]. *)
Definition usage_notes : string :=
  ("💡 **Usage**: Use these symbols in equations like 'F = m * a' or 'E = m * c**2'" ++ LF)
  ++ ("🔍 **Note**: Use 'lambda_' for wavelength (lambda is a Python keyword)" ++ LF)
  ++ "⚙️ **Custom Variables**: Use the 'add_custom_variable' tool to add your own variables".

Section Tools.
Context `{RT : Runtime}.

(** [str] of a [float], as an f-string prints it: a builtin of Python, kept
    abstract. *)
Variable float_str : spec_float -> string.

(** The tool [check_equation]. *)
Definition check_equation (equation : string) (ctx : RequestContext)
    (stdout : list string) : outcome string * list string :=
  let session_config := session_config ctx in
  match build_context session_config stdout with
  | (Raise e, stdout) => (Raise e, stdout)
  | (Ok context, stdout) =>
      match check_equation_sanity equation context
              (verbose_output session_config) with
      | Raise e => (Raise e, stdout)
      | Ok result =>
          match verbose_output session_config, verbose result with
          | true, Some verbose_info =>
              (Ok (message result ++ LF ++ LF ++ "Detailed Analysis:" ++ LF
                   ++ "- LHS: " ++ lhs_expression verbose_info ++ " = "
                   ++ float_str (lhs_magnitude verbose_info) ++ " ["
                   ++ str_or_None (lhs_units result) ++ "]" ++ LF
                   ++ "- RHS: " ++ rhs_expression verbose_info ++ " = "
                   ++ float_str (rhs_magnitude verbose_info) ++ " ["
                   ++ str_or_None (rhs_units result) ++ "]"),
               stdout)
          | _, _ => (Ok (message result), stdout)
          end
      end
  end.

(** The loop of [list_units] over the terms of the configured string.  It
    runs inside a [try]: the lines written before an exception stay in
    [output]. *)
Fixpoint list_custom_vars (var_defs : list string)
    (context : gmap string (value Unit)) (output : string)
  : string * outcome () :=
  match var_defs with
  | [] => (output, Ok ())
  | var_def :: rest =>
      if PyStr.contains "=" var_def then
        match unpack2 (PyStr.split1 "=" (PyStr.strip var_def)) with
        | Raise e => (output, Raise e)
        | Ok (var_name, unit_expr) =>
            let var_name := PyStr.strip var_name in
            let unit_expr := PyStr.strip unit_expr in
            match context !! var_name with
            | Some v =>
                match get_units v with
                | Raise e => (output, Raise e)
                | Ok u =>
                    list_custom_vars rest context
                      (output ++ unit_line var_name (units_str u))
                end
            | None => list_custom_vars rest context output
            end
        end
      else list_custom_vars rest context output
  end.

(** The tool [list_units]. *)
Definition list_units (ctx : RequestContext) (stdout : list string)
  : outcome string * list string :=
  let session_config := session_config ctx in
  match build_context session_config stdout with
  | (Raise e, stdout) => (Raise e, stdout)
  | (Ok context, stdout) =>
      let output := "🔬 Available Physical Units and Constants" ++ LF ++ LF in
      let output := list_categories categories output in
      let output :=
        if include_constants session_config then
          list_entries constants (output ++ ("## Physical Constants" ++ LF))
          ++ LF
        else output in
      if truthy (custom_variables session_config) then
        let output := output ++ ("## Custom Variables" ++ LF) in
        let '(output, status) :=
          list_custom_vars
            (PyStr.split "," (default "" (custom_variables session_config)))
            context output in
        match status with
        | Ok _ => (Ok ((output ++ LF) ++ usage_notes), stdout)
        | Raise e =>
            if is_Exception e then
              (Ok (((output ++ ("- Error: " ++ exn_text e ++ LF)) ++ LF)
                   ++ usage_notes),
               stdout)
            else (Raise e, stdout)
        end
      else (Ok (output ++ usage_notes), stdout)
  end.

End Tools.

(** The listing of the custom variables as a function of the terms: one line
    per term whose name the table binds to a quantity; the listing stops at
    the first name bound to a bare number. *)
Fixpoint custom_lines `{RT : Runtime} (terms : list (string * string))
    (context : gmap string (value Unit)) : string * option number :=
  match terms with
  | [] => (EmptyString, None)
  | (name, _) :: rest =>
      match context !! name with
      | Some (VQuantity q) =>
          let '(lines, stop) := custom_lines rest context in
          (unit_line name (units_str (units q)) ++ lines, stop)
      | Some (VNumber n) => (EmptyString, Some n)
      | None => custom_lines rest context
      end
  end.

(** A fragment of [str] on floats for the reference runtime: the floats of
    integral value below [10 ** 16], which print as [digits.0]. *)
Module ReferenceText.

Fixpoint decimal (fuel : nat) (n : Z) (acc : string) : string :=
  match fuel with
  | O => acc
  | S fuel' =>
      let acc' := String (ascii_of_nat (48 + Z.to_nat (n mod 10))) acc in
      if (n / 10 =? 0)%Z then acc' else decimal fuel' (n / 10) acc'
  end.

Definition integral (m : positive) (e : Z) : option Z :=
  if (0 <=? e)%Z then Some (Z.pos m * 2 ^ e)%Z
  else if (Z.pos m mod 2 ^ (- e) =? 0)%Z then Some (Z.pos m / 2 ^ (- e))%Z
  else None.

Definition float_str (f : spec_float) : string :=
  match f with
  | S754_zero false => "0.0"
  | S754_zero true => "-0.0"
  | S754_infinity false => "inf"
  | S754_infinity true => "-inf"
  | S754_nan => "nan"
  | S754_finite s m e =>
      match integral m e with
      | Some z =>
          if (z <? 10 ^ 16)%Z
          then (if s then "-" else "") ++ decimal 17 z ".0"
          else "<outside the fragment>"
      | None => "<outside the fragment>"
      end
  end.

End ReferenceText.

(** ** Notions used in the proofs about [strip] *)

(** All bytes are continuation bytes. *)
Fixpoint all_continuation (s : string) : bool :=
  match s with
  | EmptyString => true
  | String a rest => PyStr.is_continuation a && all_continuation rest
  end.

(** One byte followed by continuation bytes only. *)
Definition is_chunk (c : string) : bool :=
  match c with
  | EmptyString => false
  | String _ rest => all_continuation rest
  end.

(** A list of chunks in which only the first may start with a continuation
    byte: the shape of what [code_points] returns. *)
Fixpoint chunked (cps : list string) : bool :=
  match cps with
  | [] => true
  | c :: rest =>
      is_chunk c
      && match rest with
         | [] => true
         | d :: _ => negb (PyStr.starts_with_continuation d)
         end
      && chunked rest
  end.

(** The first code point, if any, is not a space. *)
Definition head_nonspace (cps : list string) : bool :=
  match cps with
  | [] => true
  | c :: _ => negb (PyStr.is_space c)
  end.

(** ** Notions used to state the further properties *)

(** A name that a configuration string can carry: no [,], no [=], no
    surrounding whitespace. *)
Definition clean_name (name : string) : Prop :=
  PyStr.contains "," name = false
  ∧ PyStr.contains "=" name = false
  ∧ PyStr.strip name = name.

(** A unit expression that a configuration string can carry: no [,], no
    surrounding whitespace. *)
Definition clean_unit (unit : string) : Prop :=
  PyStr.contains "," unit = false ∧ PyStr.strip unit = unit.

(** The configuration with its string of custom variables replaced. *)
Definition with_custom_variables (session_config : ConfigSchema)
    (spec : option string) : ConfigSchema :=
  {| verbose_output := verbose_output session_config;
     include_constants := include_constants session_config;
     custom_variables := spec |}.

(** The configuration string that [add_custom_variable] proposes. *)
Definition proposed_custom_variables (name unit : string)
    (session_config : ConfigSchema) : string :=
  PyStr.join ","
    (map render_var (od_set name unit (configured_bindings session_config))).

(** All of a result but the echoed equation text. *)
Definition answer (r : result)
  : bool * option string * option string * string * option verbose_info :=
  (consistent r, lhs_units r, rhs_units r, message r, verbose r).

Definition outcome_map {A B} (f : A -> B) (o : outcome A) : outcome B :=
  match o with
  | Ok a => Ok (f a)
  | Raise e => Raise e
  end.

(** The lines that [list_entries] writes. *)
Definition entries_text (units : list (string * string)) : string :=
  list_entries units EmptyString.

(** The block of [list_units] on the physical constants. *)
Definition constants_block : string :=
  ("## Physical Constants" ++ LF) ++ entries_text constants ++ LF.

(** The part of the listing that does not depend on the custom variables:
    the title and the five categories. *)
Definition categories_listing : string :=
  list_categories categories
    ("🔬 Available Physical Units and Constants" ++ LF ++ LF).


(** The configuration with its [include_constants] option replaced. *)
Definition with_include_constants (session_config : ConfigSchema)
    (flag : bool) : ConfigSchema :=
  {| verbose_output := verbose_output session_config;
     include_constants := flag;
     custom_variables := custom_variables session_config |}.

(** The text of the [ValueError] of an equation that does not split into
    two sides. *)
Definition unpack_error_text (equation : string) : string :=
  if (PyStr.count "=" equation =? 0)%nat
  then "not enough values to unpack (expected 2, got 1)"
  else "too many values to unpack (expected 2)".

(** * Facts about the string primitives *)
Section PyStrFacts.
Import PyStr.

Lemma split_nonempty sep s : ∃ hd tl, split sep s = hd :: tl.
Proof.
  induction s as [|a s [hd [tl IH]]]; simpl; [eauto|].
  destruct (Ascii.eqb a sep); [eauto|]. rewrite IH. eauto.
Qed.

Lemma split_length sep s : length (split sep s) = S (count sep s).
Proof.
  induction s as [|a s IH]; simpl; [done|].
  destruct (Ascii.eqb a sep); simpl; [by rewrite IH|].
  destruct (split_nonempty sep s) as [hd [tl E]].
  rewrite E in IH |- *. done.
Qed.

Lemma split_without sep s : contains sep s = false → split sep s = [s].
Proof.
  induction s as [|a s IH]; simpl; [done|].
  destruct (Ascii.eqb a sep); [done|]. intros H. by rewrite IH.
Qed.

Lemma split_at_sep sep a b :
  contains sep a = false → split sep (a ++ String sep b) = a :: split sep b.
Proof.
  induction a as [|c a IH]; simpl.
  - intros _. by rewrite Ascii.eqb_refl.
  - destruct (Ascii.eqb c sep); [done|]. intros H. by rewrite IH.
Qed.

(** An equation with exactly one [=] splits into its two sides. *)
Lemma split_two_sides lhs rhs :
  contains "=" lhs = false → contains "=" rhs = false →
  split "=" (lhs ++ "=" ++ rhs) = [lhs; rhs].
Proof.
  intros Hl Hr. change ("=" ++ rhs) with (String "=" rhs).
  by rewrite split_at_sep, split_without.
Qed.

Lemma join_cons sep p q parts :
  join sep (p :: q :: parts) = p ++ sep ++ join sep (q :: parts).
Proof. done. Qed.

Lemma join_split sep s : join (String sep EmptyString) (split sep s) = s.
Proof.
  induction s as [|a s IH]; simpl; [done|].
  destruct (split_nonempty sep s) as [hd [tl E]]. rewrite E in IH |- *.
  destruct (Ascii.eqb_spec a sep) as [->|Hne].
  - by rewrite join_cons, IH.
  - destruct tl as [|q tl]; [by simpl in *; rewrite IH|].
    rewrite join_cons. rewrite join_cons in IH. by rewrite <- IH.
Qed.

Lemma split_parts_without sep s :
  Forall (fun part => contains sep part = false) (split sep s).
Proof.
  induction s as [|a s IH]; simpl; [by repeat constructor|].
  destruct (Ascii.eqb a sep) eqn:E; [by constructor|].
  destruct (split sep s) as [|hd tl]; [by repeat constructor; simpl; rewrite E|].
  inversion IH; subst. constructor; [|done]. simpl. by rewrite E.
Qed.

Lemma split1_with sep s :
  contains sep s = true → split1 sep s = [before sep s; after sep s].
Proof.
  induction s as [|a s IH]; simpl; [done|].
  destruct (Ascii.eqb a sep); [done|]. intros H. by rewrite IH.
Qed.

Lemma before_after sep s :
  contains sep s = true →
  s = before sep s ++ String sep (after sep s)
  ∧ contains sep (before sep s) = false.
Proof.
  induction s as [|a s IH]; simpl; [done|].
  destruct (Ascii.eqb_spec a sep) as [->|Hne]; [done|].
  intros H. destruct (IH H) as [E1 E2]. split.
  - change (String a s = String a (before sep s ++ String sep (after sep s))).
    by rewrite <- E1.
  - simpl. destruct (Ascii.eqb_spec a sep); done.
Qed.

Lemma contains_app c a b :
  contains c (a ++ b) = contains c a || contains c b.
Proof.
  induction a as [|x a IH]; simpl; [done|]. by destruct (Ascii.eqb x c).
Qed.

Lemma concat_cons p q parts :
  String.concat EmptyString (p :: q :: parts)
  = p ++ String.concat EmptyString (q :: parts).
Proof. done. Qed.

Lemma contains_concat c parts :
  contains c (String.concat EmptyString parts) = existsb (contains c) parts.
Proof.
  induction parts as [|p parts IH]; [done|].
  destruct parts as [|q parts].
  - simpl. by rewrite orb_false_r.
  - rewrite concat_cons, contains_app, IH. done.
Qed.

Lemma concat_code_points s : String.concat EmptyString (code_points s) = s.
Proof.
  induction s as [|a s IH]; [done|].
  simpl code_points.
  destruct (code_points s) as [|hd tl]; [by simpl in *; rewrite <- IH|].
  destruct (starts_with_continuation s).
  - destruct tl as [|q tl]; [by simpl in *; rewrite <- IH|].
    rewrite concat_cons. rewrite concat_cons in IH. by rewrite <- IH.
  - rewrite concat_cons. by rewrite IH.
Qed.

Lemma is_space_without_eq cp : is_space cp = true → contains "=" cp = false.
Proof.
  unfold is_space. rewrite existsb_exists. intros [w [Hin Heq]].
  apply String.eqb_eq in Heq. subst w.
  vm_compute in Hin. repeat (destruct Hin as [<-|Hin]; [reflexivity|]).
  destruct Hin.
Qed.

Lemma drop_space_keeps_eq cps :
  existsb (contains "=") (drop_space cps) = existsb (contains "=") cps.
Proof.
  induction cps as [|cp cps IH]; simpl; [done|].
  destruct (is_space cp) eqn:E; [|done].
  by rewrite IH, (is_space_without_eq cp E).
Qed.

Lemma existsb_rev {A} (f : A → bool) l : existsb f (rev l) = existsb f l.
Proof.
  induction l as [|x l IH]; simpl; [done|].
  rewrite existsb_app, IH. simpl. rewrite orb_false_r. apply orb_comm.
Qed.

(** Trimming never removes an [=]. *)
Lemma strip_keeps_eq s : contains "=" (strip s) = contains "=" s.
Proof.
  unfold strip, rstrip_cps, lstrip_cps.
  rewrite contains_concat, existsb_rev, drop_space_keeps_eq, existsb_rev,
    drop_space_keeps_eq, <- contains_concat, concat_code_points.
  done.
Qed.

End PyStrFacts.

(** * Facts about the server *)
Section ServerFacts.
Context `{RT : Runtime}.

Abbreviation context := (gmap string (value Unit)).

Lemma bind_ok {A B} (a : A) (k : A → outcome B) : (Ok a ≫= k) = k a.
Proof. done. Qed.

Lemma bind_raise {A B} (e : exn) (k : A → outcome B) :
  (Raise e ≫= k) = Raise e.
Proof. done. Qed.

Lemma consistent_compared equation lq rq :
  consistent (compared equation lq rq) = true
  ↔ dimensionality (units lq) = dimensionality (units rq).
Proof.
  unfold compared, check. case_bool_decide; simpl; split; done.
Qed.

Lemma units_compared equation lq rq :
  lhs_units (compared equation lq rq) = Some (units_str (units lq))
  ∧ rhs_units (compared equation lq rq) = Some (units_str (units rq)).
Proof. unfold compared. by destruct (check lq rq). Qed.

(** What the [try] body computes once the equation has split in two and
    both sides have evaluated to quantities. *)
Lemma check_equation_body_quantities equation lhs rhs ctx verbose lq rq :
  PyStr.split "=" equation = [lhs; rhs] →
  py_eval (PyStr.strip lhs) (InContext ctx) = Ok (VQuantity lq) →
  py_eval (PyStr.strip rhs) (InContext ctx) = Ok (VQuantity rq) →
  check_equation_body equation ctx verbose
  = if verbose then
      lm ← py_float (magnitude lq);
      rm ← py_float (magnitude rq);
      mret (set_verbose (compared equation lq rq)
              {| lhs_expression := PyStr.strip lhs;
                 rhs_expression := PyStr.strip rhs;
                 lhs_magnitude := lm;
                 rhs_magnitude := rm |})
    else mret (compared equation lq rq).
Proof.
  intros Es El Er. unfold check_equation_body.
  rewrite Es. simpl unpack2. by rewrite bind_ok, El, bind_ok, Er, bind_ok.
Qed.

(** C1, amended: for an equation [lhs = rhs] with exactly one [=] whose
    sides both evaluate to quantities, and, when [verbose] is set, whose
    two magnitudes convert to [float], [check_equation_sanity] returns
    [consistent = true] exactly when the two quantities have the same
    dimension, whatever their magnitudes and unit scales. *)
Theorem check_equation_sanity_consistent_iff_same_dimension
    (lhs rhs : string) (ctx : context) (verbose : bool)
    (lq rq : Quantity Unit) :
  PyStr.contains "=" lhs = false →
  PyStr.contains "=" rhs = false →
  py_eval (PyStr.strip lhs) (InContext ctx) = Ok (VQuantity lq) →
  py_eval (PyStr.strip rhs) (InContext ctx) = Ok (VQuantity rq) →
  (verbose = true →
   ∃ lm rm, py_float (magnitude lq) = Ok lm ∧ py_float (magnitude rq) = Ok rm) →
  ∃ r, check_equation_sanity (lhs ++ "=" ++ rhs) ctx verbose = Ok r
       ∧ (consistent r = true
          ↔ dimensionality (units lq) = dimensionality (units rq)).
Proof.
  intros Hl Hr El Er Hfloat. unfold check_equation_sanity.
  rewrite (check_equation_body_quantities _ lhs rhs _ _ lq rq)
    by auto using split_two_sides.
  destruct verbose.
  - destruct Hfloat as (lm & rm & -> & ->); [done|].
    eexists. split; [reflexivity|]. apply consistent_compared.
  - eexists. split; [reflexivity|]. apply consistent_compared.
Qed.

(** The ways [check_equation_sanity] can end. *)
Lemma check_equation_sanity_cases equation ctx verbose :
  (∃ e, is_Exception e = true
        ∧ check_equation_sanity equation ctx verbose
          = Ok (error_result equation e))
  ∨ (∃ lhs rhs e,
        PyStr.split "=" equation = [lhs; rhs]
        ∧ is_Exception e = false
        ∧ (py_eval (PyStr.strip lhs) (InContext ctx) = Raise e
           ∨ py_eval (PyStr.strip rhs) (InContext ctx) = Raise e)
        ∧ check_equation_sanity equation ctx verbose = Raise e)
  ∨ (∃ lhs rhs lq rq r,
        PyStr.split "=" equation = [lhs; rhs]
        ∧ py_eval (PyStr.strip lhs) (InContext ctx) = Ok (VQuantity lq)
        ∧ py_eval (PyStr.strip rhs) (InContext ctx) = Ok (VQuantity rq)
        ∧ check_equation_sanity equation ctx verbose = Ok r
        ∧ consistent r = consistent (compared equation lq rq)
        ∧ lhs_units r = Some (units_str (units lq))
        ∧ rhs_units r = Some (units_str (units rq))
        ∧ message r = message (compared equation lq rq)).
Proof.
  unfold check_equation_sanity.
  destruct (PyStr.split "=" equation) as [|lhs [|rhs [|]]] eqn:Es;
    try (left; unfold check_equation_body; rewrite Es; simpl;
         eexists; split; [|reflexivity]; done).
  destruct (py_eval (PyStr.strip lhs) (InContext ctx)) as [lv|e] eqn:El.
  2:{ unfold check_equation_body. rewrite Es. simpl unpack2.
      rewrite bind_ok, El, bind_raise. unfold try_except.
      destruct (is_Exception e) eqn:Ee; [left; eauto|].
      right; left. exists lhs, rhs, e. eauto. }
  destruct (py_eval (PyStr.strip rhs) (InContext ctx)) as [rv|e] eqn:Er.
  2:{ unfold check_equation_body. rewrite Es. simpl unpack2.
      rewrite bind_ok, El, bind_ok, Er, bind_raise. unfold try_except.
      destruct (is_Exception e) eqn:Ee; [left; eauto|].
      right; left. exists lhs, rhs, e. eauto. }
  destruct lv as [lq|n].
  2:{ left. unfold check_equation_body. rewrite Es. simpl unpack2.
      rewrite bind_ok, El, bind_ok, Er, bind_ok.
      exists (no_attribute n "units"). split; reflexivity. }
  destruct rv as [rq|n].
  2:{ left. unfold check_equation_body. rewrite Es. simpl unpack2.
      rewrite bind_ok, El, bind_ok, Er, bind_ok.
      exists (no_attribute n "units"). split; reflexivity. }
  rewrite (check_equation_body_quantities _ lhs rhs _ _ lq rq) by done.
  destruct verbose.
  - destruct (py_float (magnitude lq)) as [lm|e] eqn:Fl.
    2:{ left. rewrite bind_raise. destruct lq as [[z|f] u]; simpl in Fl.
        - destruct (binary_normalize _ _ _ _ _); inversion Fl; subst.
          eexists; split; [|reflexivity]; done.
        - inversion Fl. }
    destruct (py_float (magnitude rq)) as [rm|e] eqn:Fr.
    2:{ left. rewrite bind_ok, bind_raise. destruct rq as [[z|f] u]; simpl in Fr.
        - destruct (binary_normalize _ _ _ _ _); inversion Fr; subst.
          eexists; split; [|reflexivity]; done.
        - inversion Fr. }
    right; right. rewrite !bind_ok. simpl.
    exists lhs, rhs, lq, rq. eexists.
    repeat split; eauto; simpl; apply units_compared.
  - right; right. simpl. exists lhs, rhs, lq, rq. eexists.
    repeat split; eauto; apply units_compared.
Qed.

(** C2, amended: [check_equation_sanity] raises only an exception that is
    not an [Exception] (such as [SystemExit]) and that the evaluation of one
    of the two sides raised; every failure that is an [Exception] (no [=],
    more than one [=], an unknown symbol, a malformed expression, an
    evaluation error) is caught and returned as a result with
    [consistent = false], both unit strings [None], and a message that
    embeds the error text; any other result carries both unit strings. *)
Theorem check_equation_sanity_catches_every_Exception
    (equation : string) (ctx : context) (verbose : bool) :
  (∀ e, check_equation_sanity equation ctx verbose = Raise e →
        is_Exception e = false
        ∧ ∃ lhs rhs,
            PyStr.split "=" equation = [lhs; rhs]
            ∧ (py_eval (PyStr.strip lhs) (InContext ctx) = Raise e
               ∨ py_eval (PyStr.strip rhs) (InContext ctx) = Raise e))
  ∧ (∀ r, check_equation_sanity equation ctx verbose = Ok r →
          (∃ e, is_Exception e = true ∧ r = error_result equation e)
          ∨ (∃ lu ru, lhs_units r = Some lu ∧ rhs_units r = Some ru))
  ∧ (PyStr.count "=" equation ≠ 1 →
     ∃ e, exn_kind e = ValueError
          ∧ check_equation_sanity equation ctx verbose
            = Ok (error_result equation e))
  ∧ (∀ lhs rhs e,
        PyStr.split "=" equation = [lhs; rhs] →
        is_Exception e = true →
        py_eval (PyStr.strip lhs) (InContext ctx) = Raise e
        ∨ ((∃ lv, py_eval (PyStr.strip lhs) (InContext ctx) = Ok lv)
           ∧ py_eval (PyStr.strip rhs) (InContext ctx) = Raise e) →
        check_equation_sanity equation ctx verbose
        = Ok (error_result equation e))
  ∧ (∀ e, consistent (error_result equation e) = false
          ∧ lhs_units (error_result equation e) = None
          ∧ rhs_units (error_result equation e) = None
          ∧ message (error_result equation e)
            = "❌ Error while checking equation: " ++ exn_text e).
Proof.
  split; [|split; [|split; [|split]]].
  - intros e H.
    destruct (check_equation_sanity_cases equation ctx verbose)
      as [(e' & _ & E) | [(lhs & rhs & e' & Es & Ee & Hev & E)
                         | (lhs & rhs & lq & rq & r & _ & _ & _ & E & _)]];
      rewrite E in H; inversion H; subst; eauto.
  - intros r H.
    destruct (check_equation_sanity_cases equation ctx verbose)
      as [(e' & Ee & E) | [(lhs & rhs & e' & Es & Ee & Hev & E)
                          | (lhs & rhs & lq & rq & r' & _ & _ & _ & E & _
                             & Hlu & Hru & _)]];
      rewrite E in H; inversion H; subst; eauto.
  - intros Hcount. pose proof (split_length "=" equation) as Hlen.
    unfold check_equation_sanity, check_equation_body.
    destruct (PyStr.split "=" equation) as [|lhs [|rhs [|x rest]]];
      simpl in Hlen; try lia; eexists; (split; [|reflexivity]); done.
  - intros lhs rhs e Es Ee Hev.
    unfold check_equation_sanity, check_equation_body.
    rewrite Es. simpl unpack2. rewrite bind_ok.
    destruct Hev as [El | [[lv El] Er]].
    + rewrite El, bind_raise. unfold try_except. by rewrite Ee.
    + rewrite El, bind_ok, Er, bind_raise. unfold try_except. by rewrite Ee.
  - done.
Qed.

Lemma message_compared_consistent equation lq rq :
  consistent (compared equation lq rq) = true →
  message (compared equation lq rq)
  = "✅ Equation is dimensionally consistent: both sides are ["
    ++ units_str (units lq) ++ "].".
Proof. unfold compared. by destruct (check lq rq). Qed.

(** C3, amended: on a consistent result, [lhs_units] and [rhs_units] hold
    each side's own canonical unit string, and the success message always
    reads "both sides are [X]" with X the unit string of the left-hand
    side, whether or not the right-hand side's string is the same. *)
Theorem consistent_result_names_lhs_units
    (equation : string) (ctx : context) (verbose : bool) (r : result) :
  check_equation_sanity equation ctx verbose = Ok r →
  consistent r = true →
  ∃ lhs rhs lq rq,
    PyStr.split "=" equation = [lhs; rhs]
    ∧ py_eval (PyStr.strip lhs) (InContext ctx) = Ok (VQuantity lq)
    ∧ py_eval (PyStr.strip rhs) (InContext ctx) = Ok (VQuantity rq)
    ∧ lhs_units r = Some (units_str (units lq))
    ∧ rhs_units r = Some (units_str (units rq))
    ∧ message r
      = "✅ Equation is dimensionally consistent: both sides are ["
        ++ units_str (units lq) ++ "].".
Proof.
  intros Hr Hc.
  destruct (check_equation_sanity_cases equation ctx verbose)
    as [(e' & _ & E) | [(lhs & rhs & e' & Es & Ee & Hev & E)
                       | (lhs & rhs & lq & rq & r' & Es & El & Er & E
                          & Hcons & Hlu & Hru & Hm)]];
    rewrite E in Hr; inversion Hr; subst; [done|].
  exists lhs, rhs, lq, rq. repeat split; try done.
  rewrite Hm. apply message_compared_consistent. by rewrite <- Hcons.
Qed.

(** C10: for an equation with exactly one [=] whose sides both evaluate,
    one of them to a bare number, [check_equation_sanity] returns the
    generic error result: the number has no attribute [units]. *)
Theorem bare_number_side_gives_error_result
    (lhs rhs : string) (ctx : context) (verbose : bool)
    (lv rv : value Unit) :
  PyStr.contains "=" lhs = false →
  PyStr.contains "=" rhs = false →
  py_eval (PyStr.strip lhs) (InContext ctx) = Ok lv →
  py_eval (PyStr.strip rhs) (InContext ctx) = Ok rv →
  (∃ n, lv = VNumber n) ∨ (∃ n, rv = VNumber n) →
  ∃ n r,
    (lv = VNumber n ∨ rv = VNumber n)
    ∧ check_equation_sanity (lhs ++ "=" ++ rhs) ctx verbose = Ok r
    ∧ r = error_result (lhs ++ "=" ++ rhs) (no_attribute n "units")
    ∧ consistent r = false
    ∧ lhs_units r = None
    ∧ rhs_units r = None
    ∧ message r
      = "❌ Error while checking equation: '" ++ type_name n
        ++ "' object has no attribute 'units'".
Proof.
  intros Hl Hr El Er Hnum.
  assert (∃ n, (lv = VNumber n ∨ rv = VNumber n)
               ∧ check_equation_sanity (lhs ++ "=" ++ rhs) ctx verbose
                 = Ok (error_result (lhs ++ "=" ++ rhs)
                                    (no_attribute n "units")))
    as (n & Hn & E).
  { unfold check_equation_sanity, check_equation_body.
    rewrite (split_two_sides _ _ Hl Hr). simpl unpack2.
    rewrite bind_ok, El, bind_ok, Er, bind_ok.
    destruct lv as [lq|n]; [destruct rv as [rq|n]|].
    - destruct Hnum as [[n Hn]|[n Hn]]; discriminate.
    - exists n. split; [by right | reflexivity].
    - exists n. split; [by left | reflexivity]. }
  exists n, (error_result (lhs ++ "=" ++ rhs) (no_attribute n "units")).
  split; [exact Hn|]. split; [exact E|]. split; [done|]. by destruct n.
Qed.


(** ** The symbol-table builder *)

Lemma add_var_def_parts var_def (cv : context) :
  add_var_def var_def cv
  = match var_def_parts var_def with
    | None => Ok cv
    | Some (name, expr) => v ← resolve expr; mret (<[name := v]> cv)
    end.
Proof.
  unfold add_var_def, var_def_parts.
  destruct (PyStr.contains "=" var_def) eqn:E; [|done].
  rewrite split1_with by (by rewrite strip_keeps_eq).
  simpl unpack2. by rewrite bind_ok.
Qed.

Lemma for_var_defs_terms var_defs (cv : context) :
  for_var_defs var_defs cv = bind_terms (omap var_def_parts var_defs) cv.
Proof.
  revert cv. induction var_defs as [|var_def var_defs IH]; intros cv; [done|].
  simpl. rewrite add_var_def_parts.
  destruct (var_def_parts var_def) as [[name expr]|]; simpl.
  - destruct (resolve expr) as [v|e]; simpl; [apply IH|done].
  - apply IH.
Qed.

Lemma build_context_terms cfg stdout :
  build_context cfg stdout = build_from_terms (configured_terms cfg) stdout.
Proof.
  unfold build_context, build_from_terms, configured_terms, custom_terms.
  destruct base_context as [base|e]; [|done].
  destruct (truthy (custom_variables cfg)).
  - by rewrite for_var_defs_terms.
  - simpl. by rewrite (left_id_L ∅ (∪)).
Qed.


Lemma bind_terms_all_ok terms (cv : context) :
  (∀ name expr, (name, expr) ∈ terms → ∃ v, resolve expr = Ok v) →
  ∃ cv', bind_terms terms cv = Ok cv'.
Proof.
  revert cv. induction terms as [|[k x] terms IH]; intros cv Hall; simpl.
  - eauto.
  - destruct (Hall k x) as [v ->]; [by left|]. rewrite bind_ok.
    apply IH. intros name expr Hin. apply (Hall name expr). by right.
Qed.

Lemma bind_terms_raise terms (cv : context) name expr e :
  (name, expr) ∈ terms → resolve expr = Raise e →
  ∃ name' expr' e',
    (name', expr') ∈ terms ∧ resolve expr' = Raise e'
    ∧ bind_terms terms cv = Raise e'.
Proof.
  revert cv. induction terms as [|[k x] terms IH]; intros cv Hin Hr.
  - by apply elem_of_nil in Hin.
  - simpl. destruct (resolve x) as [v|e0] eqn:Ex.
    + rewrite bind_ok. apply elem_of_cons in Hin as [[= <- <-]|Hin].
      * congruence.
      * destruct (IH (<[k:=v]> cv) Hin Hr) as (n' & x' & e' & H1 & H2 & H3).
        exists n', x', e'. split; [by right|done].
    + exists k, x, e0. split; [by left|done].
Qed.

Lemma resolve_fails_both expr e1 e2 :
  parse_units expr = Raise e1 → py_eval expr InRegistry = Raise e2 →
  resolve expr = Raise (if is_Exception e1 then e2 else e1).
Proof.
  intros E1 E2. unfold resolve, Q_, try_except.
  rewrite E1, bind_raise, bind_raise. by destruct (is_Exception e1).
Qed.


(** C4, amended: when some term's expression fails both resolution
    attempts, and no attempt on a term ends in an exception that is not an
    [Exception], [build_context] returns the catalog with no custom
    variable applied, not even those that resolved before the failing
    term; the build does not fail and prints one warning. *)
Theorem failing_term_discards_custom_variables
    (session_config : ConfigSchema) (stdout : list string) (base : context)
    (name expr : string) (e1 e2 : exn) :
  base_context = Ok base →
  (name, expr) ∈ configured_terms session_config →
  parse_units expr = Raise e1 →
  py_eval expr InRegistry = Raise e2 →
  (∀ n x e, (n, x) ∈ configured_terms session_config →
            resolve x = Raise e → is_Exception e = true) →
  ∃ e, build_context session_config stdout
       = (Ok base,
          app stdout ["Warning: Failed to parse custom variables: "
                      ++ exn_text e]).
Proof.
  intros Hbase Hin E1 E2 Hexc.
  rewrite build_context_terms. unfold build_from_terms. rewrite Hbase.
  destruct (bind_terms_raise _ ∅ _ _ _ Hin (resolve_fails_both _ _ _ E1 E2))
    as (n' & x' & e' & Hin' & Hr' & ->).
  rewrite (Hexc _ _ _ Hin' Hr'). eauto.
Qed.

(** C5: for a term [name=expr], the loop body of [build_context] first
    reads [expr] as a pure unit and binds [name] to the quantity of
    magnitude 1; only when that attempt fails (with an [Exception]) does it
    evaluate [expr] with [Q_] and [ureg] in scope. *)
Theorem custom_variable_two_step_resolution
    (var_def name expr : string) (custom_vars : context) :
  var_def_parts var_def = Some (name, expr) →
  (∀ u, parse_units expr = Ok u →
        add_var_def var_def custom_vars
        = Ok (<[name := VQuantity (Q (PyInt 1) u)]> custom_vars))
  ∧ (∀ e, parse_units expr = Raise e → is_Exception e = true →
          add_var_def var_def custom_vars
          = (v ← py_eval expr InRegistry;
             mret (<[name := v]> custom_vars)))
  ∧ (∀ e, parse_units expr = Raise e → is_Exception e = false →
          add_var_def var_def custom_vars = Raise e).
Proof.
  intros Hparts. rewrite add_var_def_parts, Hparts.
  unfold resolve, Q_, try_except.
  split; [|split].
  - by intros u ->.
  - intros e -> He. by rewrite !bind_raise, He.
  - intros e -> He. by rewrite !bind_raise, He.
Qed.

(** C6: the specification string is cut at every [,]; a term is cut at its
    first [=] into a name and an expression, both trimmed; a term without
    [=] leaves the custom variables as they are, so that the build is the
    one of the remaining terms. *)
Theorem custom_variables_are_split_into_terms (spec : string) :
  PyStr.join "," (PyStr.split "," spec) = spec
  ∧ Forall (fun var_def => PyStr.contains "," var_def = false)
           (PyStr.split "," spec)
  ∧ (∀ var_def (custom_vars : context),
        PyStr.contains "=" var_def = true →
        let term := PyStr.strip var_def in
        term = PyStr.before "=" term ++ "=" ++ PyStr.after "=" term
        ∧ PyStr.contains "=" (PyStr.before "=" term) = false
        ∧ add_var_def var_def custom_vars
          = (v ← resolve (PyStr.strip (PyStr.after "=" term));
             mret (<[PyStr.strip (PyStr.before "=" term) := v]> custom_vars)))
  ∧ (∀ var_def (custom_vars : context),
        PyStr.contains "=" var_def = false →
        add_var_def var_def custom_vars = Ok custom_vars)
  ∧ (∀ session_config stdout,
        custom_variables session_config = Some spec →
        build_context session_config stdout
        = build_from_terms (configured_terms session_config) stdout).
Proof.
  split; [apply join_split|]. split; [apply split_parts_without|].
  split; [|split].
  - intros var_def cv Heq term.
    assert (PyStr.contains "=" term = true) as Hterm
      by (by unfold term; rewrite strip_keeps_eq).
    destruct (before_after _ _ Hterm) as [E1 E2].
    split; [exact E1|]. split; [exact E2|].
    rewrite add_var_def_parts. unfold var_def_parts. by rewrite Heq.
  - intros var_def cv Hno. rewrite add_var_def_parts. unfold var_def_parts.
    by rewrite Hno.
  - intros cfg stdout _. apply build_context_terms.
Qed.



End ServerFacts.

(** * Facts about the registration tool *)
Section RegistrationFacts.

Lemma od_get_set_eq k v d : od_get k (od_set k v d) = Some v.
Proof.
  induction d as [|[k' v'] d IH]; simpl.
  - by rewrite String.eqb_refl.
  - destruct (String.eqb k' k) eqn:E; simpl; by rewrite E.
Qed.

Lemma od_get_set_ne k k' v d :
  k ≠ k' → od_get k' (od_set k v d) = od_get k' d.
Proof.
  intros Hne. induction d as [|[k0 v0] d IH]; simpl.
  - by destruct (String.eqb_spec k k').
  - destruct (String.eqb_spec k0 k) as [->|Hk]; simpl.
    + by destruct (String.eqb_spec k k').
    + by rewrite IH.
Qed.

Lemma od_set_keys k v d :
  map fst (od_set k v d)
  = if decide (k ∈ map fst d) then map fst d else (map fst d ++ [k])%list.
Proof.
  induction d as [|[k0 v0] d IH]; simpl; [done|].
  destruct (String.eqb_spec k0 k) as [->|Hk]; simpl.
  - rewrite decide_True; [done|by left].
  - rewrite IH. destruct (decide (k ∈ map fst d)) as [Hin|Hnin].
    + rewrite decide_True; [done|by right].
    + rewrite decide_False; [done|].
      intros [->|Hin]%elem_of_cons; done.
Qed.

Lemma od_set_NoDup k v d : NoDup (map fst d) → NoDup (map fst (od_set k v d)).
Proof.
  intros Hd. rewrite od_set_keys. case_decide; [done|].
  apply NoDup_app. split; [done|]. split; [|apply NoDup_singleton].
  intros x Hx ->%list_elem_of_singleton. done.
Qed.

Lemma od_fold_NoDup terms d :
  NoDup (map fst d) →
  NoDup (map fst (foldl (fun d kv => od_set (fst kv) (snd kv) d) d terms)).
Proof.
  revert d. induction terms as [|[k v] terms IH]; intros d Hd; simpl; [done|].
  by apply IH, od_set_NoDup.
Qed.

Lemma od_fold_get terms d k :
  od_get k (foldl (fun d kv => od_set (fst kv) (snd kv) d) d terms)
  = match last_binding k terms with
    | Some v => Some v
    | None => od_get k d
    end.
Proof.
  revert d. induction terms as [|[k0 v0] terms IH]; intros d; simpl; [done|].
  rewrite IH. destruct (last_binding k terms); [done|].
  destruct (String.eqb_spec k0 k) as [->|Hne].
  - apply od_get_set_eq.
  - by apply od_get_set_ne.
Qed.

Lemma collect_var_defs_terms var_defs d :
  collect_var_defs var_defs d
  = (foldl (fun d kv => od_set (fst kv) (snd kv) d) d
           (omap var_def_parts var_defs),
     Ok ()).
Proof.
  revert d. induction var_defs as [|var_def var_defs IH]; intros d; [done|].
  simpl. unfold var_def_parts.
  destruct (PyStr.contains "=" var_def) eqn:E; [|apply IH].
  rewrite split1_with by (by rewrite strip_keeps_eq). simpl. apply IH.
Qed.


End RegistrationFacts.

(** * The server on the reference runtime *)
Section Runs.
Import Reference Inputs.

Example split_at_commas :
  PyStr.split "," "a=b, c ,d=e=f" = ["a=b"; " c "; "d=e=f"].
Proof. reflexivity. Qed.

Example split1_at_first_eq : PyStr.split1 "=" " d=e=f" = [" d"; "e=f"].
Proof. reflexivity. Qed.

Example strip_unicode_space :
  PyStr.strip (PyStr.bytes [194; 160; 32; 97; 32; 98; 226; 128; 131; 9]%nat)
  = "a b".
Proof. reflexivity. Qed.

Example float_of_largest_int :
  py_float (PyInt (2 ^ 1024 - 2 ^ 970 - 1))
  = Ok (S754_finite false (2 ^ 53 - 1) 971).
Proof. vm_compute. reflexivity. Qed.

Example float_of_next_int_overflows :
  py_float (PyInt (2 ^ 1024 - 2 ^ 970))
  = Raise (Exn OverflowError "int too large to convert to float").
Proof. vm_compute. reflexivity. Qed.

Example float_rounds_to_even :
  py_float (PyInt (2 ^ 53 + 1)) = Ok (S754_finite false (2 ^ 52) 1).
Proof. vm_compute. reflexivity. Qed.

Example catalog_parses : base_context = Ok catalog_table.
Proof. vm_compute. reflexivity. Qed.

Example force_and_momentum_differ :
  check_equation_sanity "F = p" catalog_table false
  = Ok {| equation := "F = p";
          consistent := false;
          lhs_units := Some "newton";
          rhs_units := Some "kilogram * meter / second";
          message := "❌ Equation is NOT consistent: LHS is [newton] but RHS is [kilogram * meter / second].";
          verbose := None |}.
Proof. vm_compute. reflexivity. Qed.

End Runs.

(** * Witnesses and counterexamples on the reference runtime *)
Section Evidence.
Import Reference Inputs.

Lemma check_equation_sanity_consistent_iff_same_dimension_witness :
  ∃ r, check_equation_sanity ("d " ++ "=" ++ " x") catalog_table true = Ok r
       ∧ (consistent r = true
          ↔ dimensionality (units (Q (PyInt 1) meter))
            = dimensionality (units (Q (PyInt 1) meter))).
Proof.
  apply (check_equation_sanity_consistent_iff_same_dimension
           (RT := runtime) "d " " x" catalog_table true
           (Q (PyInt 1) meter) (Q (PyInt 1) meter)).
  - reflexivity.
  - reflexivity.
  - vm_compute. reflexivity.
  - vm_compute. reflexivity.
  - intros _. eexists _, _. split; vm_compute; reflexivity.
Defined.

(** C1 as stated fails with [verbose] set: both sides of [d = d] evaluate
    to the same quantity, of magnitude [10 ** 400], and the conversion of
    that magnitude to [float] turns the answer into the error result. *)
Lemma check_equation_sanity_verbose_overflow_counterexample :
  PyStr.count "=" "d = d" = 1
  ∧ py_eval (PyStr.strip "d ") (InContext far_table) = Ok (VQuantity far)
  ∧ py_eval (PyStr.strip " d") (InContext far_table) = Ok (VQuantity far)
  ∧ dimensionality (units far) = dimensionality (units far)
  ∧ check_equation_sanity "d = d" far_table true
    = Ok (error_result "d = d"
            (Exn OverflowError "int too large to convert to float"))
  ∧ consistent (error_result "d = d"
                  (Exn OverflowError "int too large to convert to float"))
    = false.
Proof. repeat split; vm_compute; reflexivity. Qed.

Lemma check_equation_sanity_catches_every_Exception_witness :
  ∃ e, exn_kind e = ValueError
       ∧ check_equation_sanity "F == m * a" catalog_table false
         = Ok (error_result "F == m * a" e).
Proof.
  apply (proj1 (proj2 (proj2 (check_equation_sanity_catches_every_Exception
                         (RT := runtime) "F == m * a" catalog_table false)))).
  vm_compute. lia.
Defined.

(** C2 as stated fails: the evaluation of the left-hand side raises
    [SystemExit], which [except Exception] does not catch. *)
Lemma check_equation_sanity_SystemExit_counterexample :
  check_equation_sanity "__import__('sys').exit() = 1" catalog_table false
  = Raise (Exn SystemExit "").
Proof. vm_compute. reflexivity. Qed.

Lemma consistent_result_names_lhs_units_witness :
  ∃ lhs rhs lq rq,
    PyStr.split "=" "d = y" = [lhs; rhs]
    ∧ py_eval (PyStr.strip lhs)
              (InContext (table (config false (Some "y=kilometer"))))
      = Ok (VQuantity lq)
    ∧ py_eval (PyStr.strip rhs)
              (InContext (table (config false (Some "y=kilometer"))))
      = Ok (VQuantity rq)
    ∧ Some "meter" = Some (units_str (units lq))
    ∧ Some "kilometer" = Some (units_str (units rq))
    ∧ "✅ Equation is dimensionally consistent: both sides are [meter]."
      = "✅ Equation is dimensionally consistent: both sides are ["
        ++ units_str (units lq) ++ "].".
Proof.
  apply (consistent_result_names_lhs_units
           (RT := runtime) "d = y"
           (table (config false (Some "y=kilometer"))) false
           {| equation := "d = y";
              consistent := true;
              lhs_units := Some "meter";
              rhs_units := Some "kilometer";
              message := "✅ Equation is dimensionally consistent: both sides are [meter].";
              verbose := None |}).
  - vm_compute. reflexivity.
  - reflexivity.
Defined.

(** C3 as stated fails: with [y] configured in kilometers, [d = y] is
    consistent, the two unit strings differ, and the message still says
    that both sides are [meter]. *)
Lemma consistent_message_single_unit_counterexample :
  fst (build_context (config false (Some "y=kilometer")) [])
  = Ok (table (config false (Some "y=kilometer")))
  ∧ check_equation_sanity "d = y"
      (table (config false (Some "y=kilometer"))) false
    = Ok {| equation := "d = y";
            consistent := true;
            lhs_units := Some "meter";
            rhs_units := Some "kilometer";
            message := "✅ Equation is dimensionally consistent: both sides are [meter].";
            verbose := None |}
  ∧ "meter" ≠ "kilometer".
Proof. repeat split; try (vm_compute; reflexivity). discriminate. Qed.


(** Membership in a list given in full, one element at a time. *)
Ltac each_term H :=
  repeat (apply elem_of_cons in H as [H|H]; [inversion H; subst; clear H|]);
  [..|by apply elem_of_nil in H].

Lemma failing_term_discards_custom_variables_witness :
  ∃ e, build_context (config false (Some "t=meter, x = nosuch ,y=kilometer"))
                     ["earlier output"]
       = (Ok catalog_table,
          app ["earlier output"]
              ["Warning: Failed to parse custom variables: " ++ exn_text e]).
Proof.
  apply (failing_term_discards_custom_variables
           (RT := runtime)
           (config false (Some "t=meter, x = nosuch ,y=kilometer"))
           ["earlier output"] catalog_table "x" "nosuch"
           (Exn UndefinedUnitError
                "'nosuch' is not defined in the unit registry")
           (Exn NameError "name 'nosuch' is not defined")).
  - vm_compute. reflexivity.
  - vm_compute. right. left.
  - reflexivity.
  - reflexivity.
  - intros n x e Hin Hr. vm_compute in Hin. each_term Hin;
      vm_compute in Hr; inversion Hr; reflexivity.
Defined.

(** C4 as stated fails: the expression of the only term fails both
    attempts, the second with [SystemExit]; the build raises it and prints
    no warning. *)
Lemma failing_term_SystemExit_counterexample :
  configured_terms (config false (Some "x=__import__('sys').exit()"))
  = [("x", "__import__('sys').exit()")]
  ∧ (∃ e, parse_units "__import__('sys').exit()" = Raise e
          ∧ is_Exception e = true)
  ∧ py_eval "__import__('sys').exit()" InRegistry = Raise (Exn SystemExit "")
  ∧ build_context (config false (Some "x=__import__('sys').exit()")) []
    = (Raise (Exn SystemExit ""), []).
Proof.
  split; [reflexivity|]. split; [eexists; split; reflexivity|].
  split; vm_compute; reflexivity.
Qed.

Lemma custom_variable_two_step_resolution_witness :
  add_var_def " V = meter**3 " ∅
  = Ok (<["V" := VQuantity (Q (PyInt 1) meter_cubed)]> ∅).
Proof.
  apply (proj1 (custom_variable_two_step_resolution
                  (RT := runtime) " V = meter**3 " "V" "meter**3" ∅
                  eq_refl)).
  reflexivity.
Defined.

Lemma custom_variables_are_split_into_terms_witness :
  build_context (config false (Some "a=meter,zz, b = second")) []
  = build_from_terms [("a", "meter"); ("b", "second")] [].
Proof.
  apply (proj2 (proj2 (proj2 (proj2
           (custom_variables_are_split_into_terms
              (RT := runtime) "a=meter,zz, b = second"))))
           (config false (Some "a=meter,zz, b = second")) []).
  reflexivity.
Defined.





Lemma bare_number_side_gives_error_result_witness :
  ∃ n r,
    (VNumber (U := unit) (PyInt 2) = VNumber n
     ∨ VNumber (U := unit) (PyInt 2) = VNumber n)
    ∧ check_equation_sanity ("2 " ++ "=" ++ " 2") catalog_table false = Ok r
    ∧ r = error_result ("2 " ++ "=" ++ " 2") (no_attribute n "units")
    ∧ consistent r = false
    ∧ lhs_units r = None
    ∧ rhs_units r = None
    ∧ message r
      = "❌ Error while checking equation: '" ++ type_name n
        ++ "' object has no attribute 'units'".
Proof.
  apply (bare_number_side_gives_error_result
           (RT := runtime) "2 " " 2" catalog_table false
           (VNumber (PyInt 2)) (VNumber (PyInt 2))).
  - reflexivity.
  - reflexivity.
  - vm_compute. reflexivity.
  - vm_compute. reflexivity.
  - left. by exists (PyInt 2).
Defined.

End Evidence.

(** * Facts about [strip] *)
Section StripFacts.
Import PyStr.

Lemma append_cons a s t : String a s ++ t = String a (s ++ t).
Proof. done. Qed.

Lemma append_nil_l s : EmptyString ++ s = s.
Proof. done. Qed.

Lemma code_points_cons_nonempty a s : code_points (String a s) ≠ [].
Proof.
  simpl. destruct (code_points s); [done|].
  by destruct (starts_with_continuation s).
Qed.

Lemma code_points_head s hd tl :
  code_points s = hd :: tl →
  starts_with_continuation hd = starts_with_continuation s ∧ hd ≠ EmptyString.
Proof.
  destruct s as [|a s]; [done|]. simpl.
  destruct (code_points s) as [|c cs].
  - by intros [= <- <-].
  - destruct (starts_with_continuation s); by intros [= <- <-].
Qed.

Lemma chunked_code_points s : chunked (code_points s) = true.
Proof.
  induction s as [|a s IH]; [done|]. simpl.
  destruct (code_points s) as [|hd tl] eqn:E; [done|].
  destruct (code_points_head _ _ _ E) as [Hhd Hne].
  simpl in IH. apply andb_prop in IH as [IH1 IH3].
  apply andb_prop in IH1 as [IH1 IH2].
  destruct (starts_with_continuation s) eqn:Es.
  - destruct hd as [|b t]; [done|]. simpl in *.
    by rewrite Hhd, IH1, IH2, IH3.
  - simpl. by rewrite Hhd, IH1, IH2, IH3.
Qed.

Lemma code_points_single t a :
  all_continuation t = true → code_points (String a t) = [String a t].
Proof.
  revert a. induction t as [|b t IH]; intros a Ht; [done|].
  simpl in Ht. apply andb_prop in Ht as [Hb Ht].
  change (code_points (String a (String b t)))
    with (match code_points (String b t) with
          | hd :: tl =>
              if starts_with_continuation (String b t)
              then String a hd :: tl else String a EmptyString :: hd :: tl
          | [] => [String a EmptyString]
          end).
  rewrite (IH b Ht). simpl. by rewrite Hb.
Qed.

Lemma code_points_chunk_app t a rest hd tl :
  all_continuation t = true →
  code_points rest = hd :: tl →
  starts_with_continuation rest = false →
  code_points (String a (t ++ rest)) = String a t :: hd :: tl.
Proof.
  revert a. induction t as [|b t IH]; intros a Ht Hrest Hs.
  - rewrite append_nil_l. simpl. by rewrite Hrest, Hs.
  - simpl in Ht. apply andb_prop in Ht as [Hb Ht].
    rewrite append_cons.
    change (code_points (String a (String b (t ++ rest))))
      with (match code_points (String b (t ++ rest)) with
            | hd :: tl =>
                if starts_with_continuation (String b (t ++ rest))
                then String a hd :: tl else String a EmptyString :: hd :: tl
            | [] => [String a EmptyString]
            end).
    rewrite (IH b Ht Hrest Hs). simpl. by rewrite Hb.
Qed.

Lemma starts_with_continuation_app c s :
  c ≠ EmptyString →
  starts_with_continuation (c ++ s) = starts_with_continuation c.
Proof. by destruct c. Qed.

(** Cutting into code points undoes the concatenation of chunks. *)
Lemma code_points_concat cps :
  chunked cps = true → code_points (String.concat EmptyString cps) = cps.
Proof.
  induction cps as [|c cps IH]; [done|].
  intros H. simpl in H. apply andb_prop in H as [H H3].
  apply andb_prop in H as [H1 H2].
  destruct c as [|a t]; [done|]. simpl in H1.
  destruct cps as [|d cps].
  - by apply code_points_single.
  - rewrite concat_cons, append_cons.
    assert (d ≠ EmptyString) as Hd.
    { simpl in H3. by destruct d. }
    apply code_points_chunk_app; [done|by apply IH|].
    destruct cps as [|d' cps].
    + simpl. by apply negb_true_iff.
    + rewrite concat_cons, starts_with_continuation_app by done.
      by apply negb_true_iff.
Qed.

Lemma chunked_suffix pre cps : chunked (pre ++ cps) = true → chunked cps = true.
Proof.
  induction pre as [|c pre IH]; [done|]. simpl.
  intros H. apply andb_prop in H as [_ H]. by apply IH.
Qed.

Lemma chunked_prefix cps suf : chunked (cps ++ suf) = true → chunked cps = true.
Proof.
  induction cps as [|c cps IH]; [done|]. simpl.
  intros H. apply andb_prop in H as [H H3].
  apply andb_prop in H as [H1 H2].
  rewrite H1, (IH H3). destruct cps; [done|]. simpl in H2. by rewrite H2.
Qed.

Lemma drop_space_suffix cps : ∃ pre, cps = (pre ++ drop_space cps)%list.
Proof.
  induction cps as [|c cps [pre IH]]; [by exists []|]. simpl.
  destruct (is_space c).
  - exists (c :: pre). simpl. by rewrite <- IH.
  - by exists [].
Qed.

Lemma rstrip_prefix cps : ∃ suf, cps = (rstrip_cps cps ++ suf)%list.
Proof.
  unfold rstrip_cps. destruct (drop_space_suffix (rev cps)) as [pre E].
  exists (rev pre). rewrite <- rev_app_distr, <- E. by rewrite rev_involutive.
Qed.

Lemma head_nonspace_drop_space cps : head_nonspace (drop_space cps) = true.
Proof.
  induction cps as [|c cps IH]; [done|]. simpl.
  destruct (is_space c) eqn:E; [done|]. simpl. by rewrite E.
Qed.

Lemma drop_space_head_nonspace cps :
  head_nonspace cps = true → drop_space cps = cps.
Proof.
  destruct cps as [|c cps]; [done|]. simpl.
  by intros ->%negb_true_iff.
Qed.

Lemma head_nonspace_prefix cps suf :
  head_nonspace (cps ++ suf) = true → head_nonspace cps = true.
Proof. by destruct cps. Qed.

Lemma head_nonspace_app cps suf :
  cps ≠ [] → head_nonspace (cps ++ suf) = head_nonspace cps.
Proof. by destruct cps. Qed.

(** What [strip] keeps starts and ends with a code point that is no
    space. *)
Lemma stripped_ends cps :
  head_nonspace (rstrip_cps (lstrip_cps cps)) = true
  ∧ head_nonspace (rev (rstrip_cps (lstrip_cps cps))) = true.
Proof.
  unfold lstrip_cps. split.
  - destruct (rstrip_prefix (drop_space cps)) as [suf E].
    apply (head_nonspace_prefix _ suf). rewrite <- E.
    apply head_nonspace_drop_space.
  - unfold rstrip_cps. rewrite rev_involutive. apply head_nonspace_drop_space.
Qed.

Lemma stripped_chunked s :
  chunked (rstrip_cps (lstrip_cps (code_points s))) = true.
Proof.
  destruct (rstrip_prefix (lstrip_cps (code_points s))) as [suf E].
  apply (chunked_prefix _ suf). rewrite <- E. unfold lstrip_cps.
  destruct (drop_space_suffix (code_points s)) as [pre E'].
  apply (chunked_suffix pre). rewrite <- E'. apply chunked_code_points.
Qed.

Lemma strip_of_ends s :
  head_nonspace (code_points s) = true →
  head_nonspace (rev (code_points s)) = true →
  strip s = s.
Proof.
  intros H1 H2. unfold strip, rstrip_cps, lstrip_cps.
  rewrite (drop_space_head_nonspace _ H1), (drop_space_head_nonspace _ H2).
  rewrite rev_involutive. apply concat_code_points.
Qed.

Lemma ends_of_strip s :
  strip s = s →
  head_nonspace (code_points s) = true
  ∧ head_nonspace (rev (code_points s)) = true.
Proof.
  intros E.
  assert (rstrip_cps (lstrip_cps (code_points s)) = code_points s) as <-.
  { rewrite <- E at 2. unfold strip.
    by rewrite code_points_concat by apply stripped_chunked. }
  apply stripped_ends.
Qed.

(** Trimming twice is trimming once. *)
Lemma strip_idempotent s : strip (strip s) = strip s.
Proof.
  apply strip_of_ends; unfold strip;
    rewrite code_points_concat by apply stripped_chunked; apply stripped_ends.
Qed.

End StripFacts.

(** * Facts about configuration strings *)
Section ConfigurationFacts.
Import PyStr.

Lemma code_points_app a b :
  starts_with_continuation b = false →
  code_points (a ++ b) = (code_points a ++ code_points b)%list.
Proof.
  intros Hb. induction a as [|x a IH]; [done|].
  rewrite append_cons.
  change (code_points (String x (a ++ b)))
    with (match code_points (a ++ b) with
          | hd :: tl =>
              if starts_with_continuation (a ++ b)
              then String x hd :: tl else String x EmptyString :: hd :: tl
          | [] => [String x EmptyString]
          end).
  rewrite IH. destruct a as [|y a].
  - rewrite append_nil_l, Hb. simpl. by destruct (code_points b).
  - pose proof (code_points_cons_nonempty y a) as Hne.
    rewrite append_cons.
    change (code_points (String x (String y a)))
      with (match code_points (String y a) with
            | hd :: tl =>
                if starts_with_continuation (String y a)
                then String x hd :: tl else String x EmptyString :: hd :: tl
            | [] => [String x EmptyString]
            end).
    destruct (code_points (String y a)) as [|hd tl]; [done|]. simpl.
    by destruct (is_continuation y).
Qed.

Lemma eq_chunk_nonspace t : is_space (String "=" t) = false.
Proof.
  destruct (is_space (String "=" t)) eqn:E; [|done].
  apply is_space_without_eq in E. simpl in E. done.
Qed.

(** [name=unit] needs no trimming when neither side does. *)
Lemma strip_render k v :
  strip k = k → strip v = v → strip (k ++ "=" ++ v) = k ++ "=" ++ v.
Proof.
  intros [Hk1 Hk2]%ends_of_strip [Hv1 Hv2]%ends_of_strip.
  change ("=" ++ v) with (String "=" v).
  assert (∃ t tl, code_points (String "=" v) = String "=" t :: tl
                  ∧ head_nonspace (rev (String "=" t :: tl)) = true)
    as (t & tl & EX & HX).
  { simpl code_points. destruct (code_points v) as [|hd cps] eqn:Ev.
    - exists EmptyString, []. done.
    - destruct (starts_with_continuation v).
      + exists hd, cps. split; [done|]. simpl rev.
        destruct cps as [|c cps];
          [cbn [rev app head_nonspace]; by rewrite eq_chunk_nonspace|].
        simpl rev in Hv2 |- *.
        rewrite head_nonspace_app in Hv2 |- *; try done;
          by destruct (rev cps).
      + exists EmptyString, (hd :: cps). split; [done|].
        change (rev (String "=" EmptyString :: hd :: cps))
          with (rev (hd :: cps) ++ [String "=" EmptyString])%list.
        rewrite head_nonspace_app; [done|].
        simpl. by destruct (rev cps). }
  apply strip_of_ends; rewrite code_points_app by done; rewrite EX.
  - destruct (code_points k);
      [cbn [app head_nonspace]; by rewrite eq_chunk_nonspace|done].
  - rewrite rev_app_distr, head_nonspace_app; [done|].
    simpl. by destruct (rev tl).
Qed.

Lemma existsb_drop_space (f : string → bool) cps :
  existsb f (drop_space cps) = true → existsb f cps = true.
Proof.
  induction cps as [|c cps IH]; [done|]. simpl.
  destruct (is_space c); [|done]. intros H. by rewrite (IH H), orb_true_r.
Qed.

(** Trimming adds no character. *)
Lemma contains_strip c s : contains c s = false → contains c (strip s) = false.
Proof.
  intros H. destruct (contains c (strip s)) eqn:E; [|done].
  unfold strip, rstrip_cps, lstrip_cps in E.
  rewrite contains_concat, existsb_rev in E.
  apply existsb_drop_space in E. rewrite existsb_rev in E.
  apply existsb_drop_space in E.
  by rewrite <- contains_concat, concat_code_points, H in E.
Qed.

Lemma contains_before c sep s :
  contains c s = false → contains c (before sep s) = false.
Proof.
  induction s as [|a s IH]; [done|]. simpl.
  destruct (Ascii.eqb a c) eqn:E; [done|]. intros H.
  destruct (Ascii.eqb a sep); [done|]. simpl. by rewrite E, IH.
Qed.

Lemma contains_after c sep s :
  contains c s = false → contains c (after sep s) = false.
Proof.
  induction s as [|a s IH]; [done|]. simpl.
  destruct (Ascii.eqb a c) eqn:E; [done|]. intros H.
  destruct (Ascii.eqb a sep); [done|by apply IH].
Qed.

Lemma before_after_render sep k v :
  contains sep k = false →
  before sep (k ++ String sep v) = k ∧ after sep (k ++ String sep v) = v.
Proof.
  induction k as [|a k IH]; intros H.
  - rewrite append_nil_l. simpl. by rewrite Ascii.eqb_refl.
  - simpl in H. destruct (Ascii.eqb a sep) eqn:E; [done|].
    destruct (IH H) as [E1 E2]. rewrite append_cons. simpl.
    by rewrite E, E1, E2.
Qed.

Lemma split_join sep parts :
  parts ≠ [] →
  Forall (fun part => contains sep part = false) parts →
  split sep (join (String sep EmptyString) parts) = parts.
Proof.
  induction parts as [|p parts IH]; [done|]. intros _ Hall.
  inversion Hall as [|? ? Hp Hrest]; subst.
  destruct parts as [|q parts]; [by apply split_without|].
  rewrite join_cons. change (String sep EmptyString ++ ?x) with (String sep x).
  rewrite split_at_sep by done. by rewrite IH.
Qed.

Lemma var_def_parts_render k v :
  contains "=" k = false → strip k = k → strip v = v →
  var_def_parts (k ++ "=" ++ v) = Some (k, v).
Proof.
  intros Hk Sk Sv. unfold var_def_parts.
  rewrite contains_app. simpl (contains "=" ("=" ++ v)).
  rewrite orb_true_r, strip_render by done.
  change ("=" ++ v) with (String "=" v).
  destruct (before_after_render "=" k v Hk) as [-> ->]. by rewrite Sk, Sv.
Qed.

Lemma var_def_parts_clean var_def k v :
  contains "," var_def = false →
  var_def_parts var_def = Some (k, v) →
  clean_name k ∧ clean_unit v.
Proof.
  unfold var_def_parts. intros Hc.
  destruct (contains "=" var_def) eqn:E; [|done]. intros [= <- <-].
  assert (contains "=" (strip var_def) = true) as Hterm
    by by rewrite strip_keeps_eq.
  destruct (before_after _ _ Hterm) as [_ Hb].
  repeat split.
  - by apply contains_strip, contains_before, contains_strip.
  - by rewrite strip_keeps_eq.
  - apply strip_idempotent.
  - by apply contains_strip, contains_after, contains_strip.
  - apply strip_idempotent.
Qed.

Lemma custom_terms_clean spec :
  Forall (fun kv => clean_name (fst kv) ∧ clean_unit (snd kv))
         (custom_terms spec).
Proof.
  unfold custom_terms. pose proof (split_parts_without "," spec) as Hall.
  induction Hall as [|t ts Ht _ IH]; simpl; [constructor|].
  destruct (var_def_parts t) as [[k v]|] eqn:E; [|done].
  constructor; [|done]. by apply (var_def_parts_clean t).
Qed.

Lemma omap_render terms :
  Forall (fun kv => clean_name (fst kv) ∧ clean_unit (snd kv)) terms →
  omap var_def_parts (map render_var terms) = terms.
Proof.
  induction terms as [|[k v] ts IH]; [done|]. intros Hall.
  inversion Hall as [|? ? [(Hk1 & Hk2 & Hk3) (Hv1 & Hv2)] Hrest]; subst.
  simpl in *. change (render_var (k, v)) with (k ++ "=" ++ v).
  rewrite var_def_parts_render by done. f_equal. by apply IH.
Qed.

Lemma custom_terms_join terms :
  terms ≠ [] →
  Forall (fun kv => clean_name (fst kv) ∧ clean_unit (snd kv)) terms →
  custom_terms (join "," (map render_var terms)) = terms.
Proof.
  intros Hne Hall. unfold custom_terms.
  rewrite split_join.
  - by apply omap_render.
  - by destruct terms.
  - apply Forall_fmap. eapply Forall_impl; [exact Hall|].
    intros [k v] [(Hk1 & _) (Hv1 & _)]. unfold render_var. simpl in *.
    rewrite !contains_app, Hk1, Hv1. done.
Qed.

Lemma join_render_truthy terms :
  terms ≠ [] → truthy (Some (join "," (map render_var terms))) = true.
Proof.
  destruct terms as [|[k v] ts]; [done|]. intros _.
  change (map render_var ((k, v) :: ts))
    with ((k ++ "=" ++ v) :: map render_var ts).
  destruct (map render_var ts) as [|q qs].
  - change (join "," [k ++ "=" ++ v]) with (k ++ "=" ++ v). by destruct k.
  - rewrite join_cons. by destruct k.
Qed.

End ConfigurationFacts.

(** * Further facts about the registration tool *)
Section RegistrationRoundTrip.

Lemma od_set_Forall (P : string * string → Prop) k v d :
  Forall P d → P (k, v) → Forall P (od_set k v d).
Proof.
  intros Hd Hkv. induction Hd as [|[k' v'] d Hx Hd IH]; simpl.
  - by repeat constructor.
  - destruct (String.eqb_spec k' k) as [->|Hne]; by constructor.
Qed.

Lemma od_fold_Forall (P : string * string → Prop) terms d :
  Forall P d → Forall P terms →
  Forall P (foldl (fun d kv => od_set (fst kv) (snd kv) d) d terms).
Proof.
  intros Hd Hterms. revert d Hd.
  induction Hterms as [|[k v] terms Hkv _ IH]; intros d Hd; [done|].
  simpl. by apply IH, od_set_Forall.
Qed.

Lemma configured_terms_clean session_config :
  Forall (fun kv => clean_name (fst kv) ∧ clean_unit (snd kv))
         (configured_terms session_config).
Proof.
  unfold configured_terms.
  destruct (truthy _); [apply custom_terms_clean|constructor].
Qed.

Lemma od_set_nonempty k v d : od_set k v d ≠ [].
Proof.
  destruct d as [|[k' v'] d]; simpl; [done|].
  by destruct (String.eqb k' k).
Qed.

Lemma od_set_fresh k v d :
  k ∉ map fst d → od_set k v d = (d ++ [(k, v)])%list.
Proof.
  induction d as [|[k' v'] d IH]; simpl; [done|]. intros Hnin.
  destruct (String.eqb_spec k' k) as [->|Hne].
  - exfalso. apply Hnin. by left.
  - rewrite IH; [done|]. intros Hin. apply Hnin. by right.
Qed.

Lemma od_set_same k v d : od_get k d = Some v → od_set k v d = d.
Proof.
  induction d as [|[k' v'] d IH]; simpl; [done|].
  destruct (String.eqb k' k).
  - by intros [= ->].
  - intros H. by rewrite IH.
Qed.

Lemma od_fold_NoDup_id terms d :
  NoDup (map fst (d ++ terms)) →
  foldl (fun d kv => od_set (fst kv) (snd kv) d) d terms = (d ++ terms)%list.
Proof.
  revert d. induction terms as [|[k v] terms IH]; intros d Hnd; simpl.
  - by rewrite app_nil_r.
  - rewrite od_set_fresh.
    + rewrite IH; rewrite <- app_assoc; done.
    + rewrite map_app in Hnd. apply NoDup_app in Hnd as (_ & Hdis & _).
      intros Hin. apply (Hdis k Hin). by left.
Qed.

Lemma last_binding_absent k terms :
  k ∉ map fst terms → last_binding k terms = None.
Proof.
  induction terms as [|[k' v'] terms IH]; simpl; [done|]. intros Hnin.
  rewrite IH by (intros Hin; apply Hnin; by right).
  destruct (String.eqb_spec k' k) as [->|Hne]; [|done].
  exfalso. apply Hnin. by left.
Qed.

Lemma last_binding_NoDup k terms :
  NoDup (map fst terms) → last_binding k terms = od_get k terms.
Proof.
  induction terms as [|[k' v'] terms IH]; simpl; [done|].
  intros [Hnin Hnd]%NoDup_cons.
  destruct (String.eqb_spec k' k) as [->|Hne].
  - by rewrite last_binding_absent.
  - rewrite IH by done. by destruct (od_get k terms).
Qed.

Lemma configured_bindings_NoDup session_config :
  NoDup (map fst (configured_bindings session_config)).
Proof. apply od_fold_NoDup. constructor. Qed.

Lemma add_custom_variable_proposed name unit ctx :
  add_custom_variable name unit ctx
  = (Ok (instructions name unit
           (proposed_custom_variables name unit (session_config ctx))),
     ctx).
Proof.
  unfold add_custom_variable, proposed_custom_variables, configured_bindings,
    configured_terms, custom_terms.
  destruct (truthy (custom_variables (session_config ctx))); [|done].
  by rewrite collect_var_defs_terms.
Qed.

Lemma configured_terms_proposed name unit session_config :
  clean_name name → clean_unit unit →
  configured_terms
    (with_custom_variables session_config
       (Some (proposed_custom_variables name unit session_config)))
  = od_set name unit (configured_bindings session_config).
Proof.
  intros Hname Hunit.
  unfold configured_terms, with_custom_variables.
  cbn [custom_variables]. unfold proposed_custom_variables.
  rewrite join_render_truthy by apply od_set_nonempty.
  cbn [default from_option]. apply custom_terms_join; [apply od_set_nonempty|].
  apply od_set_Forall; [|done].
  apply od_fold_Forall; [constructor|apply configured_terms_clean].
Qed.


(** X1: when [name] and [unit] carry no delimiter and no surrounding
    whitespace, the configuration string proposed by [add_custom_variable]
    reads back, term by term, as the configured bindings merged with
    [(name, unit)]: [name] is bound to [unit] and every other name keeps its
    last configured expression. *)
Theorem proposed_configuration_reads_back
    (name unit : string) (ctx : RequestContext) :
  clean_name name → clean_unit unit →
  let proposed :=
    proposed_custom_variables name unit (session_config ctx) in
  let session_config' :=
    with_custom_variables (session_config ctx) (Some proposed) in
  fst (add_custom_variable name unit ctx)
  = Ok (instructions name unit proposed)
  ∧ configured_terms session_config'
    = od_set name unit (configured_bindings (session_config ctx))
  ∧ last_binding name (configured_terms session_config') = Some unit
  ∧ ∀ other, other ≠ name →
      last_binding other (configured_terms session_config')
      = last_binding other (configured_terms (session_config ctx)).
Proof.
  intros Hname Hunit proposed session_config'.
  pose proof (configured_terms_proposed name unit (session_config ctx)
                Hname Hunit) as Hterms.
  assert (NoDup (map fst (od_set name unit
                            (configured_bindings (session_config ctx)))))
    as Hnd by apply od_set_NoDup, configured_bindings_NoDup.
  split; [by rewrite add_custom_variable_proposed|]. split; [done|].
  unfold session_config', proposed. rewrite Hterms. split.
  - rewrite last_binding_NoDup by done. apply od_get_set_eq.
  - intros other Hne. rewrite last_binding_NoDup by done.
    rewrite od_get_set_ne by done. unfold configured_bindings.
    rewrite od_fold_get. by destruct (last_binding other _).
Qed.

(** X2: registering the same clean [(name, unit)] again, on the
    configuration that the first registration proposed, proposes the same
    string. *)
Theorem add_custom_variable_idempotent
    (name unit : string) (session_config : ConfigSchema) :
  clean_name name → clean_unit unit →
  let proposed := proposed_custom_variables name unit session_config in
  fst (add_custom_variable name unit
         {| session_config :=
              with_custom_variables session_config (Some proposed) |})
  = fst (add_custom_variable name unit {| session_config := session_config |}).
Proof.
  intros Hname Hunit proposed.
  rewrite !add_custom_variable_proposed. simpl. do 2 f_equal.
  unfold proposed_custom_variables at 1. unfold configured_bindings at 1.
  unfold proposed. rewrite configured_terms_proposed by done.
  assert (NoDup (map fst (od_set name unit
                            (configured_bindings session_config))))
    as Hnd by apply od_set_NoDup, configured_bindings_NoDup.
  rewrite (od_fold_NoDup_id _ []) by done. simpl.
  by rewrite od_set_same by apply od_get_set_eq.
Qed.

End RegistrationRoundTrip.

Section RegistrationEffect.
Context `{RT : Runtime}.


End RegistrationEffect.

(** * Further facts about the equation checker *)
Section CheckerFacts.
Context `{RT : Runtime}.

Abbreviation context := (gmap string (value Unit)).

Lemma py_float_raises_Exception n e :
  py_float n = Raise e → is_Exception e = true.
Proof.
  destruct n as [z|f]; simpl; [|done].
  destruct (binary_normalize _ _ _ _ _); by intros [= <-].
Qed.


Lemma answer_compared equation equation' lq rq :
  answer (compared equation lq rq) = answer (compared equation' lq rq).
Proof. unfold compared. by destruct (check lq rq). Qed.





(** X6: whitespace around the two sides does not matter: an equation and the
    same equation with both sides trimmed get the same verdict, unit strings,
    message and verbose details (or raise the same exception). *)
Theorem sides_are_trimmed
    (lhs rhs : string) (ctx : context) (verbose : bool) :
  PyStr.contains "=" lhs = false →
  PyStr.contains "=" rhs = false →
  outcome_map answer
    (check_equation_sanity (lhs ++ "=" ++ rhs) ctx verbose)
  = outcome_map answer
      (check_equation_sanity (PyStr.strip lhs ++ "=" ++ PyStr.strip rhs)
         ctx verbose).
Proof.
  intros Hl Hr. unfold check_equation_sanity, check_equation_body.
  rewrite (split_two_sides _ _ Hl Hr).
  rewrite (split_two_sides (PyStr.strip lhs) (PyStr.strip rhs))
    by (by rewrite strip_keeps_eq).
  simpl unpack2. rewrite !bind_ok, !strip_idempotent.
  destruct (py_eval (PyStr.strip lhs) (InContext ctx)) as [lv|el];
    [|rewrite !bind_raise; unfold try_except; by destruct (is_Exception el)].
  destruct (py_eval (PyStr.strip rhs) (InContext ctx)) as [rv|er];
    [|rewrite !bind_ok, !bind_raise; unfold try_except;
      by destruct (is_Exception er)].
  rewrite !bind_ok. destruct lv as [lq|n], rv as [rq|m]; try done.
  destruct verbose; [|simpl; f_equal; apply answer_compared].
  destruct (py_float (magnitude lq)) as [lm|e1] eqn:Fl;
    [|rewrite !bind_raise; unfold try_except;
      by rewrite (py_float_raises_Exception _ _ Fl)].
  destruct (py_float (magnitude rq)) as [rm|e2] eqn:Fr;
    [|rewrite !bind_ok, !bind_raise; unfold try_except;
      by rewrite (py_float_raises_Exception _ _ Fr)].
  rewrite !bind_ok. simpl. f_equal. unfold answer, set_verbose. simpl.
  pose proof (answer_compared (lhs ++ "=" ++ rhs)
                (PyStr.strip lhs ++ "=" ++ PyStr.strip rhs) lq rq) as E.
  unfold answer in E. by injection E as -> -> -> ->.
Qed.

End CheckerFacts.

(** * Further facts about the symbol-table builder *)
Section BuilderFacts.
Context `{RT : Runtime}.

Abbreviation context := (gmap string (value Unit)).

Lemma split_parts_lack c sep s :
  PyStr.contains c s = false →
  Forall (fun part => PyStr.contains c part = false) (PyStr.split sep s).
Proof.
  induction s as [|a s IH]; simpl; [by repeat constructor|].
  destruct (Ascii.eqb a c) eqn:E; [done|]. intros H. specialize (IH H).
  destruct (Ascii.eqb a sep); [by constructor|].
  destruct (PyStr.split sep s) as [|hd tl];
    [by repeat constructor; simpl; rewrite E|].
  inversion IH; subst. constructor; [|done]. simpl. by rewrite E.
Qed.

Lemma custom_terms_without_eq spec :
  PyStr.contains "=" spec = false → custom_terms spec = [].
Proof.
  intros H. unfold custom_terms.
  pose proof (split_parts_lack "=" "," spec H) as Hall.
  induction Hall as [|t ts Ht _ IH]; [done|]. simpl.
  unfold var_def_parts at 1. by rewrite Ht.
Qed.

(** X7: a configured string without any [=] (absent, empty, blank, or
    free text) is ignored: the table is the catalog and nothing is
    printed. *)
Theorem configuration_without_eq_is_ignored
    (session_config : ConfigSchema) (stdout : list string) (base : context) :
  base_context = Ok base →
  PyStr.contains "=" (default "" (custom_variables session_config)) = false →
  build_context session_config stdout = (Ok base, stdout).
Proof.
  intros Hbase Hno. rewrite build_context_terms.
  unfold build_from_terms, configured_terms. rewrite Hbase.
  destruct (truthy _); [rewrite custom_terms_without_eq by done|];
    simpl; by rewrite (left_id_L ∅ (∪)).
Qed.

Lemma bind_terms_app terms1 terms2 (cv : context) :
  bind_terms (terms1 ++ terms2) cv
  = (cv' ← bind_terms terms1 cv; bind_terms terms2 cv').
Proof.
  revert cv. induction terms1 as [|[k x] terms1 IH]; intros cv; [done|].
  simpl. destruct (resolve x) as [v|e]; [|done]. rewrite !bind_ok. apply IH.
Qed.

(** X8: the first term that fails to resolve decides the build, and the
    terms after it are never looked at: with an [Exception] the table is the
    catalog and the warning carries that exception's text; any other
    exception leaves [build_context]. *)
Theorem first_failing_term_decides
    (session_config : ConfigSchema) (stdout : list string) (base : context)
    (before after : list (string * string)) (name expr : string) (e : exn) :
  base_context = Ok base →
  configured_terms session_config = (before ++ (name, expr) :: after)%list →
  (∀ n x, (n, x) ∈ before → ∃ w, resolve x = Ok w) →
  resolve expr = Raise e →
  build_context session_config stdout
  = if is_Exception e then
      (Ok base,
       app stdout ["Warning: Failed to parse custom variables: "
                   ++ exn_text e])
    else (Raise e, stdout).
Proof.
  intros Hbase Hterms Hbefore He. rewrite build_context_terms.
  unfold build_from_terms. rewrite Hbase, Hterms, bind_terms_app.
  destruct (bind_terms_all_ok before ∅ Hbefore) as [cv ->].
  rewrite bind_ok. simpl. by rewrite He, bind_raise.
Qed.




Lemma dict_literal_bound entries (d d' : context) name :
  dict_literal entries d = Ok d' →
  name ∈ map fst entries ∨ is_Some (d !! name) →
  is_Some (d' !! name).
Proof.
  revert d. induction entries as [|[k [m text]] entries IH]; intros d; simpl.
  - intros [= <-] [Hin|H]; [by apply elem_of_nil in Hin|done].
  - destruct (Q_ m text) as [q|e]; [|done]. rewrite bind_ok.
    intros Hd' Hname. apply (IH _ Hd').
    destruct Hname as [[->|Hin]%elem_of_cons|Hd].
    + right. by rewrite lookup_insert_eq.
    + by left.
    + right. rewrite lookup_insert_is_Some. destruct (decide (k = name)); auto.
Qed.

(** X10: custom variables can override a catalog symbol but not remove it:
    every table that [build_context] returns binds all the symbols of the
    catalog. *)
Theorem catalog_symbols_stay_bound
    (session_config : ConfigSchema) (stdout stdout' : list string)
    (table : context) (name : string) :
  build_context session_config stdout = (Ok table, stdout') →
  name ∈ map fst catalog →
  is_Some (table !! name).
Proof.
  rewrite build_context_terms. unfold build_from_terms.
  destruct base_context as [base|e] eqn:Hbase; [|done].
  intros Hbuild Hin.
  assert (is_Some (base !! name)) as Hb
    by (apply (dict_literal_bound catalog ∅); auto).
  destruct (bind_terms _ _) as [cv|e]; [|destruct (is_Exception e)];
    simplify_eq; [|done].
  apply lookup_union_is_Some. by right.
Qed.

End BuilderFacts.

(** * Facts about the tools [check_equation] and [list_units] *)
Section ToolFacts.
Context `{RT : Runtime}.
Variable float_str : spec_float → string.

Abbreviation context := (gmap string (value Unit)).

Lemma string_app_assoc (a b c : string) : (a ++ b) ++ c = a ++ (b ++ c).
Proof.
  induction a as [|x a IH]; [done|]. rewrite !append_cons. by rewrite IH.
Qed.

Lemma string_app_nil_r (a : string) : a ++ EmptyString = a.
Proof. induction a as [|x a IH]; [done|]. rewrite append_cons. by rewrite IH. Qed.

Lemma prefix_app (s t : string) : String.prefix s (s ++ t) = true.
Proof.
  induction s as [|a s IH]; [by destruct t|]. rewrite append_cons. simpl.
  by destruct (ascii_dec a a).
Qed.

Lemma prefix_check_mark_compared equation lq rq rest :
  String.prefix "✅" (message (compared equation lq rq) ++ rest)
  = consistent (compared equation lq rq).
Proof. unfold compared. destruct (check lq rq); reflexivity. Qed.

Lemma prefix_check_mark_error equation e rest :
  String.prefix "✅" (message (error_result equation e) ++ rest) = false.
Proof. done. Qed.

Lemma text_marks_verdict (r : result) (text rest : string) :
  text = message r ++ rest →
  (∃ equation e, r = error_result equation e)
  ∨ (∃ equation lq rq,
        consistent r = consistent (compared equation lq rq)
        ∧ message r = message (compared equation lq rq)) →
  String.prefix (message r) text = true
  ∧ (consistent r = true ↔ String.prefix "✅" text = true).
Proof.
  intros -> Hshape. split; [apply prefix_app|].
  destruct Hshape as [(equation & e & ->)|(equation & lq & rq & Hc & Hm)].
  - rewrite prefix_check_mark_error. simpl. split; done.
  - by rewrite Hm, prefix_check_mark_compared, <- Hc.
Qed.

(** X11: the text returned by [check_equation] starts with the message of
    the checker, and it starts with the check mark exactly when the equation
    was found consistent. *)
Theorem check_equation_marks_the_verdict
    (equation : string) (ctx : RequestContext) (stdout stdout' : list string)
    (text : string) :
  check_equation float_str equation ctx stdout = (Ok text, stdout') →
  ∃ table r,
    build_context (session_config ctx) stdout = (Ok table, stdout')
    ∧ check_equation_sanity equation table
        (verbose_output (session_config ctx)) = Ok r
    ∧ String.prefix (message r) text = true
    ∧ (consistent r = true ↔ String.prefix "✅" text = true).
Proof.
  unfold check_equation.
  remember (verbose_output (session_config ctx)) as vo eqn:V. clear V.
  destruct (build_context (session_config ctx) stdout) as [[table|e] out];
    [|done].
  destruct (check_equation_sanity_cases equation table vo)
    as [(e & _ & E) | [(lhs & rhs & e & _ & _ & _ & E)
                       | (lhs & rhs & lq & rq & r & _ & _ & _ & E & Hc & _ & _
                          & Hm)]];
    rewrite E; [|done|].
  - intros Htext.
    assert (text = message (error_result equation e) ∧ stdout' = out)
      as [-> ->] by (destruct vo; simpl in Htext; by simplify_eq).
    exists table, (error_result equation e).
    split; [done|]. split; [done|].
    apply (text_marks_verdict _ _ EmptyString); [|eauto].
    by rewrite string_app_nil_r.
  - intros Htext.
    assert (stdout' = out ∧ ∃ rest, text = message r ++ rest)
      as [-> [rest ->]].
    { destruct vo, (verbose r) as [info|]; simplify_eq;
        (split; [done|]); try (exists EmptyString; by rewrite string_app_nil_r).
      eexists. reflexivity. }
    exists table, r. split; [done|]. split; [done|].
    eapply text_marks_verdict; [reflexivity|eauto 6].
Qed.

(** X12: a malformed equation is answered, not raised, by the tool: when the
    table builds, an equation without exactly one [=] (the empty string
    included) gets the error message of the unpacking, whatever the verbose
    option. *)
Theorem check_equation_answers_malformed_equation
    (equation : string) (ctx : RequestContext) (stdout stdout' : list string)
    (table : context) :
  build_context (session_config ctx) stdout = (Ok table, stdout') →
  PyStr.count "=" equation ≠ 1 →
  check_equation float_str equation ctx stdout
  = (Ok ("❌ Error while checking equation: " ++ unpack_error_text equation),
     stdout').
Proof.
  intros Hbuild Hcount. unfold check_equation. rewrite Hbuild.
  pose proof (split_length "=" equation) as Hlen.
  unfold check_equation_sanity, check_equation_body, unpack_error_text.
  destruct (PyStr.split "=" equation) as [|lhs [|rhs [|x rest]]];
    simpl in Hlen; try lia.
  - replace (PyStr.count "=" equation) with 0 by lia.
    simpl. by destruct (verbose_output _).
  - destruct (PyStr.count "=" equation) as [|n]; [lia|].
    simpl. by destruct (verbose_output _).
Qed.

(** X13: once the catalog has parsed, [check_equation] lets no [Exception]
    through: whatever it raises is outside the [Exception] hierarchy. *)
Theorem check_equation_raises_no_Exception
    (equation : string) (ctx : RequestContext) (stdout stdout' : list string)
    (base : context) (e : exn) :
  base_context = Ok base →
  check_equation float_str equation ctx stdout = (Raise e, stdout') →
  is_Exception e = false.
Proof.
  intros Hbase. unfold check_equation.
  rewrite build_context_terms. unfold build_from_terms. rewrite Hbase.
  assert (∀ table out,
            match check_equation_sanity equation table
                    (verbose_output (session_config ctx)) with
            | Ok result =>
                match verbose_output (session_config ctx), verbose result with
                | true, Some verbose_info =>
                    (Ok (message result ++ LF ++ LF ++ "Detailed Analysis:"
                         ++ LF ++ "- LHS: " ++ lhs_expression verbose_info
                         ++ " = " ++ float_str (lhs_magnitude verbose_info)
                         ++ " [" ++ str_or_None (lhs_units result) ++ "]"
                         ++ LF ++ "- RHS: " ++ rhs_expression verbose_info
                         ++ " = " ++ float_str (rhs_magnitude verbose_info)
                         ++ " [" ++ str_or_None (rhs_units result) ++ "]"),
                     out)
                | _, _ => (Ok (message result), out)
                end
            | Raise e0 => (Raise e0, out)
            end = (Raise e, stdout') → is_Exception e = false) as K.
  { intros table out.
    destruct (check_equation_sanity_cases equation table
                (verbose_output (session_config ctx)))
      as [(e' & _ & E) | [(lhs & rhs & e' & _ & He & _ & E)
                         | (lhs & rhs & lq & rq & r & _ & _ & _ & E & _)]];
      rewrite E.
    - by destruct (verbose_output _).
    - by intros [= <- _].
    - by destruct (verbose_output _), (verbose r). }
  destruct (bind_terms _ _) as [cv|e0]; [apply K|].
  destruct (is_Exception e0) eqn:He; [apply K|]. by intros [= <- _].
Qed.

(** X14: a custom-variable string that fails to parse does not break the
    tool: [check_equation] answers as it does without custom variables, and
    one warning is printed. *)
Theorem check_equation_survives_bad_configuration
    (equation : string) (ctx : RequestContext) (stdout : list string)
    (base : context) (name expr : string) (e : exn) :
  base_context = Ok base →
  (name, expr) ∈ configured_terms (session_config ctx) →
  resolve expr = Raise e →
  (∀ n x e', (n, x) ∈ configured_terms (session_config ctx) →
             resolve x = Raise e' → is_Exception e' = true) →
  ∃ e',
    check_equation float_str equation ctx stdout
    = (fst (check_equation float_str equation
              {| session_config :=
                   with_custom_variables (session_config ctx) None |}
              stdout),
       app stdout ["Warning: Failed to parse custom variables: "
                   ++ exn_text e']).
Proof.
  intros Hbase Hin He Hexc.
  destruct (bind_terms_raise _ ∅ _ _ _ Hin He)
    as (n' & x' & e' & Hin' & Hr' & Hbind).
  exists e'. unfold check_equation. rewrite !build_context_terms.
  unfold build_from_terms. rewrite Hbase, Hbind, (Hexc _ _ _ Hin' Hr').
  cbn [session_config configured_terms with_custom_variables
       custom_variables truthy bind_terms verbose_output].
  change (mret ∅) with (Ok (∅ : context)). cbn iota.
  rewrite (left_id_L ∅ (∪)).
  destruct (check_equation_sanity equation base _) as [r|e0]; [|done].
  by destruct (verbose_output _), (verbose r).
Qed.

End ToolFacts.

(** * Facts about [list_units] *)
Section ListingFacts.
Context `{RT : Runtime}.

Abbreviation context := (gmap string (value Unit)).

Lemma list_entries_app units output :
  list_entries units output = output ++ entries_text units.
Proof.
  unfold entries_text. revert output.
  induction units as [|[symbol description] units IH]; intros output.
  - cbn [list_entries]. by rewrite string_app_nil_r.
  - cbn [list_entries]. rewrite IH, (IH (EmptyString ++ _)).
    by rewrite append_nil_l, string_app_assoc.
Qed.

(** The number that stops the listing, as the exception it raises. *)
Lemma list_custom_vars_terms var_defs (table : context) output :
  list_custom_vars var_defs table output
  = (output ++ fst (custom_lines (omap var_def_parts var_defs) table),
     match snd (custom_lines (omap var_def_parts var_defs) table) with
     | None => Ok ()
     | Some n =>
         Raise (Exn AttributeError
                  ("'" ++ type_name n ++ "' object has no attribute 'units'"))
     end).
Proof.
  revert output.
  induction var_defs as [|var_def var_defs IH]; intros output.
  - cbn. by rewrite string_app_nil_r.
  - cbn [list_custom_vars omap list_omap].
    destruct (PyStr.contains "=" var_def) eqn:E.
    2:{ assert (var_def_parts var_def = None) as ->
          by (unfold var_def_parts; by rewrite E).
        apply IH. }
    assert (var_def_parts var_def
            = Some (PyStr.strip (PyStr.before "=" (PyStr.strip var_def)),
                    PyStr.strip (PyStr.after "=" (PyStr.strip var_def))))
      as -> by (unfold var_def_parts; by rewrite E).
    rewrite split1_with by (by rewrite strip_keeps_eq).
    cbn [unpack2 custom_lines fst].
    destruct (table !! PyStr.strip (PyStr.before "=" (PyStr.strip var_def)))
      as [[q|n]|].
    + cbn [get_units]. rewrite IH.
      destruct (custom_lines _ table) as [lines stop]. cbn [fst snd].
      by rewrite string_app_assoc.
    + cbn [get_units fst snd]. by rewrite string_app_nil_r.
    + apply IH.
Qed.



(** The text of [list_units] once the table is built. *)
Lemma list_units_text ctx stdout stdout' (table : context) :
  build_context (session_config ctx) stdout = (Ok table, stdout') →
  list_units ctx stdout
  = (Ok (let static :=
           if include_constants (session_config ctx)
           then categories_listing ++ constants_block
           else categories_listing in
         if truthy (custom_variables (session_config ctx)) then
           let lines :=
             fst (custom_lines (configured_terms (session_config ctx)) table) in
           match snd (custom_lines (configured_terms (session_config ctx))
                        table) with
           | None =>
               static ++ ("## Custom Variables" ++ LF) ++ lines ++ LF
               ++ usage_notes
           | Some n =>
               static ++ ("## Custom Variables" ++ LF) ++ lines
               ++ ("- Error: '" ++ type_name n
                   ++ "' object has no attribute 'units'" ++ LF)
               ++ LF ++ usage_notes
           end
         else static ++ usage_notes),
     stdout').
Proof.
  intros Hbuild. unfold list_units, configured_terms, custom_terms.
  rewrite Hbuild. cbv beta iota zeta.
  fold categories_listing.
  assert (list_entries constants
            (categories_listing ++ ("## Physical Constants" ++ LF)) ++ LF
          = categories_listing ++ constants_block) as Hconst.
  { unfold constants_block. by rewrite list_entries_app, !string_app_assoc. }
  rewrite Hconst.
  destruct (truthy (custom_variables (session_config ctx))); [|done].
  rewrite list_custom_vars_terms.
  destruct (custom_lines _ table) as [lines [n|]]; cbn [fst snd];
    cbv beta iota zeta.
  - cbn [is_Exception exn_kind exn_text]. rewrite !string_app_assoc.
    reflexivity.
  - rewrite !string_app_assoc. reflexivity.
Qed.

(** X15: [list_units] answers whenever the table builds: a custom variable
    that is bound to a bare number cannot make it raise. *)
Theorem list_units_returns
    (ctx : RequestContext) (stdout stdout' : list string) (table : context) :
  build_context (session_config ctx) stdout = (Ok table, stdout') →
  ∃ text, list_units ctx stdout = (Ok text, stdout').
Proof. intros Hbuild. rewrite (list_units_text _ _ _ _ Hbuild). eauto. Qed.



Lemma build_context_include_constants session_config flag stdout :
  build_context (with_include_constants session_config flag) stdout
  = build_context session_config stdout.
Proof. done. Qed.

(** X18: the option [include_constants] only adds the block on the physical
    constants: with and without it, the two listings agree before and after
    that block. *)
Theorem include_constants_only_adds_its_block
    (config : ConfigSchema) (stdout stdout' : list string) (table : context) :
  build_context config stdout = (Ok table, stdout') →
  ∃ rest,
    list_units
      {| session_config := with_include_constants config true |} stdout
    = (Ok (categories_listing ++ constants_block ++ rest), stdout')
    ∧ list_units
        {| session_config := with_include_constants config false |} stdout
      = (Ok (categories_listing ++ rest), stdout').
Proof.
  intros Hbuild.
  assert (∀ flag,
            build_context
              (session_config
                 {| session_config := with_include_constants config flag |})
              stdout
            = (Ok table, stdout')) as Hb by (intros flag; exact Hbuild).
  rewrite (list_units_text _ _ _ _ (Hb true)),
    (list_units_text _ _ _ _ (Hb false)).
  cbn [session_config include_constants with_include_constants
       custom_variables]. cbv zeta.
  unfold configured_terms. cbn [custom_variables].
  destruct (truthy (custom_variables config));
    [destruct (snd (custom_lines _ table))|];
    eexists; split; rewrite ?string_app_assoc; reflexivity.
Qed.

End ListingFacts.

(** * The further properties on the reference runtime *)
Section FurtherRuns.
Import Reference Inputs.

(** Membership in a list given in full, one element at a time. *)
Ltac each_member H :=
  repeat (apply elem_of_cons in H as [H|H]; [inversion H; subst; clear H|]);
  [..|by apply elem_of_nil in H].

Lemma proposed_configuration_reads_back_witness :
  fst (add_custom_variable "g" "meter/second**2"
         {| session_config :=
              config false (Some " A = meter**2 ,zz, g=meter , A=x=y") |})
  = Ok (instructions "g" "meter/second**2" "A=x=y,g=meter/second**2")
  ∧ configured_terms
      (with_custom_variables
         (config false (Some " A = meter**2 ,zz, g=meter , A=x=y"))
         (Some "A=x=y,g=meter/second**2"))
    = [("A", "x=y"); ("g", "meter/second**2")]
  ∧ last_binding "g"
      (configured_terms
         (with_custom_variables
            (config false (Some " A = meter**2 ,zz, g=meter , A=x=y"))
            (Some "A=x=y,g=meter/second**2")))
    = Some "meter/second**2"
  ∧ ∀ other, other ≠ "g" →
      last_binding other
        (configured_terms
           (with_custom_variables
              (config false (Some " A = meter**2 ,zz, g=meter , A=x=y"))
              (Some "A=x=y,g=meter/second**2")))
      = last_binding other
          (configured_terms
             (config false (Some " A = meter**2 ,zz, g=meter , A=x=y"))).
Proof.
  apply (proposed_configuration_reads_back "g" "meter/second**2"
           {| session_config :=
                config false (Some " A = meter**2 ,zz, g=meter , A=x=y") |}).
  - repeat split; reflexivity.
  - repeat split; reflexivity.
Defined.

Lemma add_custom_variable_idempotent_witness :
  fst (add_custom_variable "g" "meter/second**2"
         {| session_config :=
              with_custom_variables
                (config false (Some " A = meter**2 ,zz, g=meter , A=x=y"))
                (Some "A=x=y,g=meter/second**2") |})
  = fst (add_custom_variable "g" "meter/second**2"
           {| session_config :=
                config false (Some " A = meter**2 ,zz, g=meter , A=x=y") |}).
Proof.
  apply (add_custom_variable_idempotent "g" "meter/second**2"
           (config false (Some " A = meter**2 ,zz, g=meter , A=x=y"))).
  - repeat split; reflexivity.
  - repeat split; reflexivity.
Defined.




Lemma sides_are_trimmed_witness :
  outcome_map answer
    (check_equation_sanity ("  d	" ++ "=" ++ " x ") catalog_table true)
  = outcome_map answer
      (check_equation_sanity
         (PyStr.strip "  d	" ++ "=" ++ PyStr.strip " x ") catalog_table true).
Proof.
  apply (sides_are_trimmed (RT := runtime) "  d	" " x " catalog_table true);
    reflexivity.
Defined.

Lemma configuration_without_eq_is_ignored_witness :
  build_context (config false (Some "gravity, area")) ["earlier output"]
  = (Ok catalog_table, ["earlier output"]).
Proof.
  apply (configuration_without_eq_is_ignored
           (RT := runtime) (config false (Some "gravity, area"))
           ["earlier output"] catalog_table).
  - vm_compute. reflexivity.
  - reflexivity.
Defined.

Lemma first_failing_term_decides_witness :
  build_context (config false (Some "t=meter, x = nosuch ,y=alsobad"))
    ["earlier output"]
  = (Ok catalog_table,
     ["earlier output";
      "Warning: Failed to parse custom variables: name 'nosuch' is not defined"]).
Proof.
  apply (first_failing_term_decides
           (RT := runtime)
           (config false (Some "t=meter, x = nosuch ,y=alsobad"))
           ["earlier output"] catalog_table
           [("t", "meter")] [("y", "alsobad")] "x" "nosuch"
           (Exn NameError "name 'nosuch' is not defined")).
  - vm_compute. reflexivity.
  - reflexivity.
  - intros n x Hin. each_member Hin. eexists. reflexivity.
  - reflexivity.
Defined.


Lemma catalog_symbols_stay_bound_witness :
  is_Some (table (config false (Some "F=meter,zz=second")) !! "F").
Proof.
  apply (catalog_symbols_stay_bound
           (RT := runtime) (config false (Some "F=meter,zz=second")) [] []).
  - vm_compute. reflexivity.
  - by left.
Defined.

Lemma check_equation_marks_the_verdict_witness :
  ∃ table r,
    build_context (config true None) [] = (Ok table, [])
    ∧ check_equation_sanity "c = v" table true = Ok r
    ∧ String.prefix (message r)
        ("✅ Equation is dimensionally consistent: both sides are [meter / second]."
         ++ LF ++ LF ++ "Detailed Analysis:" ++ LF
         ++ "- LHS: c = 299792458.0 [meter / second]" ++ LF
         ++ "- RHS: v = 1.0 [meter / second]")
      = true
    ∧ (consistent r = true
       ↔ String.prefix "✅"
           ("✅ Equation is dimensionally consistent: both sides are [meter / second]."
            ++ LF ++ LF ++ "Detailed Analysis:" ++ LF
            ++ "- LHS: c = 299792458.0 [meter / second]" ++ LF
            ++ "- RHS: v = 1.0 [meter / second]")
         = true).
Proof.
  apply (check_equation_marks_the_verdict
           (RT := runtime) ReferenceText.float_str "c = v"
           {| session_config := config true None |} [] []).
  vm_compute. reflexivity.
Defined.

Lemma check_equation_answers_malformed_equation_witness :
  check_equation ReferenceText.float_str ""
    {| session_config := config true None |} []
  = (Ok ("❌ Error while checking equation: " ++ unpack_error_text ""), []).
Proof.
  apply (check_equation_answers_malformed_equation
           (RT := runtime) ReferenceText.float_str ""
           {| session_config := config true None |} [] [] catalog_table).
  - vm_compute. reflexivity.
  - vm_compute. lia.
Defined.

Lemma check_equation_raises_no_Exception_witness :
  is_Exception (Exn SystemExit "") = false.
Proof.
  apply (check_equation_raises_no_Exception
           (RT := runtime) ReferenceText.float_str
           "__import__('sys').exit() = 1"
           {| session_config := config false None |} [] [] catalog_table).
  - vm_compute. reflexivity.
  - vm_compute. reflexivity.
Defined.

Lemma check_equation_survives_bad_configuration_witness :
  ∃ e',
    check_equation ReferenceText.float_str "c = v"
      {| session_config := config true (Some "t=meter,q=nosuch") |} []
    = (fst (check_equation ReferenceText.float_str "c = v"
              {| session_config :=
                   with_custom_variables
                     (config true (Some "t=meter,q=nosuch")) None |}
              []),
       app [] ["Warning: Failed to parse custom variables: " ++ exn_text e']).
Proof.
  apply (check_equation_survives_bad_configuration
           (RT := runtime) ReferenceText.float_str "c = v"
           {| session_config := config true (Some "t=meter,q=nosuch") |} []
           catalog_table "q" "nosuch"
           (Exn NameError "name 'nosuch' is not defined")).
  - vm_compute. reflexivity.
  - right. left.
  - reflexivity.
  - intros n x e' Hin Hr.
    change (configured_terms
              (session_config
                 {| session_config := config true (Some "t=meter,q=nosuch") |}))
      with [("t", "meter"); ("q", "nosuch")] in Hin.
    each_member Hin; vm_compute in Hr; inversion Hr; reflexivity.
Defined.

Lemma list_units_returns_witness :
  ∃ text,
    list_units {| session_config := config false (Some "t=meter, y = 5") |} []
    = (Ok text, []).
Proof.
  apply (list_units_returns
           (RT := runtime)
           {| session_config := config false (Some "t=meter, y = 5") |} [] []
           (table (config false (Some "t=meter, y = 5")))).
  vm_compute. reflexivity.
Defined.



Lemma include_constants_only_adds_its_block_witness :
  ∃ rest,
    list_units
      {| session_config :=
           with_include_constants (config false (Some "y=kilometer")) true |}
      []
    = (Ok (categories_listing ++ constants_block ++ rest), [])
    ∧ list_units
        {| session_config :=
             with_include_constants (config false (Some "y=kilometer")) false |}
        []
      = (Ok (categories_listing ++ rest), []).
Proof.
  apply (include_constants_only_adds_its_block
           (RT := runtime) (config false (Some "y=kilometer")) [] []
           (table (config false (Some "y=kilometer")))).
  vm_compute. reflexivity.
Defined.

End FurtherRuns.
